(** * AVLTree facade of euriklis-graphworld: a shallow embedding

    The class [AVLTree] (insert, delete, deleteNode, copy and the root
    accessors) is embedded over an explicit object heap.  Node objects and
    tree objects live in arenas addressed by index, so that aliasing between
    a tree and its copy, and between a located node and the tree that still
    links to it, is visible in the model.

    The ordered-tree host that the class delegates to (binary search,
    structural insert and delete, breadth-first traversal, the balance
    propagators and the rotation engine) is an interface here; the facade is
    written once against that interface, and a concrete host follows the
    design document. *)

From Stdlib Require Import ZArith Lia DecimalString.
From stdpp Require Import base option list strings.

Local Open Scope Z_scope.

(** ** JavaScript values carried as payloads and identifiers *)

(** Numbers are restricted to integers: the facade only ever tests a payload
    for truthiness and reads its [id] property. *)
#[warnings="-register-all"]
Inductive JsVal : Type :=
| JUndefined
| JNull
| JBool (b : bool)
| JNum (n : Z)
| JStr (s : string)
| JObj (props : list (string * JsVal)).

(** ToBoolean. *)
Definition truthy (v : JsVal) : bool :=
  match v with
  | JUndefined | JNull => false
  | JBool b => b
  | JNum n => negb (n =? 0)
  | JStr s => negb (String.eqb s EmptyString)
  | JObj _ => true
  end.

Fixpoint assoc (k : string) (ps : list (string * JsVal)) : JsVal :=
  match ps with
  | [] => JUndefined
  | (k', v) :: ps' => if String.eqb k k' then v else assoc k ps'
  end.

(** [data?.id]: undefined on null and undefined (optional chaining), the
    property on an object, undefined on a primitive. *)
Definition get_id (v : JsVal) : JsVal :=
  match v with
  | JObj ps => assoc "id" ps
  | _ => JUndefined
  end.

(** [a || b] *)
Definition js_or (a b : JsVal) : JsVal := if truthy a then a else b.

(** ** Objects and the heap *)

Definition ref := nat.   (* reference to an AVLDataNode object *)
Definition tref := nat.  (* reference to an AVLTree object *)

Inductive Side := L | R.

Module AVLDataNode.
Record t : Type := mk {
  data : JsVal;
  id : JsVal;
  prev : option ref;
  left : option ref;
  right : option ref;
  balance : Z
}.
Definition set_data (v : JsVal) (n : t) : t :=
  mk v (id n) (prev n) (left n) (right n) (balance n).
Definition set_id (v : JsVal) (n : t) : t :=
  mk (data n) v (prev n) (left n) (right n) (balance n).
Definition set_prev (p : option ref) (n : t) : t :=
  mk (data n) (id n) p (left n) (right n) (balance n).
Definition set_left (p : option ref) (n : t) : t :=
  mk (data n) (id n) (prev n) p (right n) (balance n).
Definition set_right (p : option ref) (n : t) : t :=
  mk (data n) (id n) (prev n) (left n) p (balance n).
Definition set_balance (b : Z) (n : t) : t :=
  mk (data n) (id n) (prev n) (left n) (right n) b.
End AVLDataNode.

Module AVLTree.
(** [_root] is the field the class reads and writes.
    Modelled from the spec: [removedLink], the parent and the side of the
    link that the host removed last.  The design document has the
    post-deletion walk begin at the recorded parent of the removed link when
    no node took the place of the unlinked one; the BST class that would
    hold that record is not among the sources. *)
Record t : Type := mk {
  _root : option ref;
  removedLink : option (ref * Side)
}.
Definition set_root (r : option ref) (x : t) : t := mk r (removedLink x).
Definition set_removedLink (l : option (ref * Side)) (x : t) : t := mk (_root x) l.
End AVLTree.

Record Heap : Type := mkHeap {
  nodes : list AVLDataNode.t;
  trees : list AVLTree.t
}.

Definition empty_heap : Heap := mkHeap [] [].

(** ** Computations on the heap *)

(** A call returns a value and the heap it leaves, throws, or does not
    return. *)
Inductive outcome (A : Type) : Type :=
| Ret (a : A) (h : Heap)
| Throw
| Diverge.
Arguments Ret {A} a h.
Arguments Throw {A}.
Arguments Diverge {A}.

Definition M (A : Type) : Type := Heap -> outcome A.

Definition ret {A} (a : A) : M A := fun h => Ret a h.

Definition bind {A B} (m : M A) (k : A -> M B) : M B :=
  fun h => match m h with
           | Ret a h' => k a h'
           | Throw => Throw
           | Diverge => Diverge
           end.

Definition throw {A} : M A := fun _ => Throw.
Definition diverge {A} : M A := fun _ => Diverge.

Declare Scope heap_scope.
Delimit Scope heap_scope with heap.
Notation "x <- c ;; k" := (bind c (fun x => k))
  (at level 100, c at next level, right associativity) : heap_scope.
Notation "c ;;; k" := (bind c (fun _ => k))
  (at level 100, right associativity) : heap_scope.
Local Open Scope heap_scope.

(** Dereferencing.  Every reference a JavaScript program holds is live; a
    dangling index is answered with [Throw]. *)
Definition read (a : ref) : M AVLDataNode.t :=
  fun h => match nodes h !! a with
           | Some n => Ret n h
           | None => Throw
           end.

Definition modify (a : ref) (f : AVLDataNode.t -> AVLDataNode.t) : M unit :=
  fun h => match nodes h !! a with
           | Some n => Ret tt (mkHeap (<[a := f n]> (nodes h)) (trees h))
           | None => Throw
           end.

Definition read_tree (t : tref) : M AVLTree.t :=
  fun h => match trees h !! t with
           | Some x => Ret x h
           | None => Throw
           end.

Definition modify_tree (t : tref) (f : AVLTree.t -> AVLTree.t) : M unit :=
  fun h => match trees h !! t with
           | Some x => Ret tt (mkHeap (nodes h) (<[t := f x]> (trees h)))
           | None => Throw
           end.

Definition alloc_node (n : AVLDataNode.t) : M ref :=
  fun h => Ret (length (nodes h)) (mkHeap (nodes h ++ [n]) (trees h)).

Definition alloc_tree (x : AVLTree.t) : M tref :=
  fun h => Ret (length (trees h)) (mkHeap (nodes h) (trees h ++ [x])).

(** The number of node objects: no walk along the links of a tree visits
    more nodes than that. *)
Definition node_count : M nat := fun h => Ret (length (nodes h)) h.

(** ** The ordered-tree host *)

(** Comparison callbacks answer -1, 0 or 1; they are taken to be pure. *)
Definition ValueCallback := AVLDataNode.t -> JsVal -> Z.
Definition NodeCallback := AVLDataNode.t -> Z.

(** What [AVLTree] imports: the node and tree constructors, [BinarySearch],
    [InsertNodeInBST] and [DeleteNodeInBST] of the BST models, the inherited
    [binarySearchNode], [BFS] and default [search] callback, and the three
    balance routines of the AVL models. *)
Class OrderedTreeHost : Type := {
  new_AVLDataNode : JsVal -> M ref;
  new_AVLTree : M tref;
  search : ValueCallback;
  BinarySearch : option ref -> JsVal -> ValueCallback -> M (option ref);
  binarySearchNode : tref -> NodeCallback -> M (option ref);
  InsertNodeInBST : tref -> ref -> JsVal -> M (option ref);
  DeleteNodeInBST : ref -> tref -> M (option ref);
  BFS : tref -> (ref -> M unit) -> M unit;
  SetBalanceFactorsBackward : ref -> tref -> M unit;
  SetBalanceFactorsForward : option ref -> tref -> M unit;
  SetBalanceFactorsAfterDeletion : option ref -> tref -> M unit
}.

(** ** The facade: class AVLTree *)

Section Facade.
Context `{host : OrderedTreeHost}.

(** [get root() { return this._root?.data || null; }] *)
Definition root (this : tref) : M JsVal :=
  t <- read_tree this ;;
  match AVLTree._root t with
  | None => ret (js_or JUndefined JNull)
  | Some r => n <- read r ;; ret (js_or (AVLDataNode.data n) JNull)
  end.

(** [set root(data) { if (data) this._root = new AVLDataNode(data); }] *)
Definition set_root (this : tref) (data : JsVal) : M unit :=
  if truthy data then
    n <- new_AVLDataNode data ;;
    modify_tree this (AVLTree.set_root (Some n))
  else ret tt.

(** The first statement of [insert]: [if (data?.id) id = data.id;] *)
Definition effective_id (data id : JsVal) : JsVal :=
  if truthy (get_id data) then get_id data else id.

(** [insert(data, id?)]; an omitted [id] is [JUndefined]. *)
Definition insert (this : tref) (data id : JsVal) : M tref :=
  let id := effective_id data id in
  n <- new_AVLDataNode data ;;
  node <- InsertNodeInBST this n id ;;
  match node with
  | Some node => SetBalanceFactorsBackward node this
  | None => ret tt
  end ;;;
  ret this.

(** [delete(value, callback = this.search)]; the result is the payload or
    [JNull]. *)
Definition delete (this : tref) (value : JsVal) (callback : option ValueCallback)
  : M JsVal :=
  let callback := default search callback in
  t <- read_tree this ;;
  node <- BinarySearch (AVLTree._root t) value callback ;;
  match node with
  | None => ret JNull
  | Some node =>
      predecessor <- DeleteNodeInBST node this ;;
      SetBalanceFactorsForward predecessor this ;;;
      n <- read node ;;
      ret (AVLDataNode.data n)
  end.

(** [deleteNode(callback)] *)
Definition deleteNode (this : tref) (callback : NodeCallback) : M (option ref) :=
  node <- binarySearchNode this callback ;;
  match node with
  | None => ret None
  | Some node =>
      predecessor <- DeleteNodeInBST node this ;;
      SetBalanceFactorsAfterDeletion predecessor this ;;;
      modify node (AVLDataNode.set_prev None) ;;;
      modify node (AVLDataNode.set_left None) ;;;
      modify node (AVLDataNode.set_right None) ;;;
      modify node (AVLDataNode.set_balance 0) ;;;
      ret (Some node)
  end.

(** The callback that [copy] hands to [BFS].  The balance routine is
    called with [this], the tree being copied, as the source has it. *)
Definition copy_visit (this tree : tref) (node : ref) : M unit :=
  n <- read node ;;
  copiedNode <- new_AVLDataNode (AVLDataNode.data n) ;;
  n' <- read node ;;
  modify copiedNode (AVLDataNode.set_id (AVLDataNode.id n')) ;;;
  insertedNode <- InsertNodeInBST tree copiedNode JUndefined ;;
  match insertedNode with
  | Some insertedNode => SetBalanceFactorsBackward insertedNode this
  | None => ret tt
  end.

(** [copy()] *)
Definition copy (this : tref) : M tref :=
  tree <- new_AVLTree ;;
  BFS this (copy_visit this tree) ;;;
  ret tree.
End Facade.

(** ** The host and the balance core, following the design document *)

Module SpecHost.

(** [o === a] on references. *)
Definition is_ref (o : option ref) (a : ref) : bool :=
  match o with
  | Some b => Nat.eqb a b
  | None => false
  end.

(** Modelled from the spec: how a walk determines whether the edit occurred
    in the left or in the right subtree of an ancestor, which the sources do
    not show.  The child slot of [parent] that holds [child] is the left one
    if the left link is [child], the right one otherwise. *)
Definition side_of (parent : AVLDataNode.t) (child : ref) : Side :=
  if is_ref (AVLDataNode.left parent) child then L else R.

(** Modelled from the spec: the constructor of AVLDataNode, which is not
    among the sources.  A node wraps the payload, takes its identifier
    from the payload's [id] property if present, has no links and balance
    factor 0. *)
Definition new_AVLDataNode (data : JsVal) : M ref :=
  alloc_node (AVLDataNode.mk data (get_id data) None None None 0).

(** Modelled from the spec: the constructor of the tree called without
    data, which yields an empty tree. *)
Definition new_AVLTree : M tref := alloc_tree (AVLTree.mk None None).

(** Modelled from the spec: binary search of the host, which is not among
    the sources.  The callback compares the candidate node with the
    target: 0 is a hit, -1 says the candidate is less than the target (go
    right), 1 that it is greater (go left). *)
Fixpoint binary_search_loop (fuel : nat) (cur : option ref)
    (cmp : AVLDataNode.t -> Z) : M (option ref) :=
  match cur with
  | None => ret None
  | Some a =>
      match fuel with
      | O => diverge
      | S fuel' =>
          n <- read a ;;
          let c := cmp n in
          if c =? 0 then ret (Some a)
          else if c <? 0 then binary_search_loop fuel' (AVLDataNode.right n) cmp
          else binary_search_loop fuel' (AVLDataNode.left n) cmp
      end
  end.

(** Modelled from the spec: [BinarySearch(root, value, callback)] of the BST
    models, which are not among the sources; the callback is applied to the
    candidate node and the value sought. *)
Definition BinarySearch (root : option ref) (value : JsVal)
    (callback : ValueCallback) : M (option ref) :=
  k <- node_count ;;
  binary_search_loop k root (fun n => callback n value).

(** Modelled from the spec: the inherited [binarySearchNode(callback)],
    which is not among the sources; the same search from the root of [this]
    with a callback on nodes. *)
Definition binarySearchNode (this : tref) (callback : NodeCallback)
  : M (option ref) :=
  t <- read_tree this ;;
  k <- node_count ;;
  binary_search_loop k (AVLTree._root t) callback.

(** Modelled from the spec: structural replacement of a subtree, which is
    not among the sources.  [new] is put where [old] hangs below [parent]
    (in the root slot of [tree] when there is no parent) and points back at
    [parent]. *)
Definition replace_child (tree : tref) (parent : option ref) (old : ref)
    (new : option ref) : M unit :=
  match parent with
  | None => modify_tree tree (AVLTree.set_root new)
  | Some p =>
      pn <- read p ;;
      match side_of pn old with
      | L => modify p (AVLDataNode.set_left new)
      | R => modify p (AVLDataNode.set_right new)
      end
  end ;;;
  match new with
  | Some c => modify c (AVLDataNode.set_prev parent)
  | None => ret tt
  end.

Section Ordered.
(** The order of the tree: candidate node against the node to place,
    -1 when the candidate is less, 1 when it is greater, 0 on equal
    keys. *)
Variable order : AVLDataNode.t -> AVLDataNode.t -> Z.

(** Modelled from the spec: structural insertion of the host, which is
    not among the sources.  It returns the inserted node, or null when
    the key is already present; a rejected insertion leaves every link
    as it was. *)
Fixpoint insert_loop (fuel : nat) (cur : ref) (n : ref) : M (option ref) :=
  match fuel with
  | O => diverge
  | S fuel' =>
      c <- read cur ;;
      x <- read n ;;
      let o := order c x in
      if o =? 0 then ret None
      else if o <? 0 then
        match AVLDataNode.right c with
        | Some r => insert_loop fuel' r n
        | None =>
            modify cur (AVLDataNode.set_right (Some n)) ;;;
            modify n (AVLDataNode.set_prev (Some cur)) ;;;
            ret (Some n)
        end
      else
        match AVLDataNode.left c with
        | Some l => insert_loop fuel' l n
        | None =>
            modify cur (AVLDataNode.set_left (Some n)) ;;;
            modify n (AVLDataNode.set_prev (Some cur)) ;;;
            ret (Some n)
        end
  end.

(** Modelled from the spec: [InsertNodeInBST(tree, node, id)], which is not
    among the sources.  A supplied identifier is stored in the node; the
    node becomes the root of an empty tree, and is placed by [insert_loop]
    otherwise. *)
Definition InsertNodeInBST (tree : tref) (n : ref) (id : JsVal)
  : M (option ref) :=
  match id with
  | JUndefined => ret tt
  | _ => modify n (AVLDataNode.set_id id)
  end ;;;
  t <- read_tree tree ;;
  match AVLTree._root t with
  | None => modify_tree tree (AVLTree.set_root (Some n)) ;;; ret (Some n)
  | Some r => k <- node_count ;; insert_loop k r n
  end.
End Ordered.

(** Modelled from the spec: the in-order successor of a node with a right
    child [a], which the sources do not show: the leftmost node below
    [a]. *)
Fixpoint leftmost (fuel : nat) (a : ref) : M ref :=
  match fuel with
  | O => diverge
  | S fuel' =>
      n <- read a ;;
      match AVLDataNode.left n with
      | Some l => leftmost fuel' l
      | None => ret a
      end
  end.

(** Modelled from the spec: the physical unlink of a node with at most one
    child, which is not among the sources.  The child takes the place of
    the node, the removed link is recorded in the tree, and the link fields
    of the node are cleared.  The result is the child that took the place,
    if any. *)
Definition unlink (tree : tref) (a : ref) : M (option ref) :=
  n <- read a ;;
  let child := match AVLDataNode.left n with
               | Some l => Some l
               | None => AVLDataNode.right n
               end in
  match AVLDataNode.prev n with
  | Some p =>
      pn <- read p ;;
      modify_tree tree (AVLTree.set_removedLink (Some (p, side_of pn a)))
  | None => modify_tree tree (AVLTree.set_removedLink None)
  end ;;;
  replace_child tree (AVLDataNode.prev n) a child ;;;
  modify a (AVLDataNode.set_prev None) ;;;
  modify a (AVLDataNode.set_left None) ;;;
  modify a (AVLDataNode.set_right None) ;;;
  ret child.

(** Modelled from the spec: structural deletion of the host, which is not
    among the sources.  A node with at most one child is unlinked itself.
    For a node with two children the in-order successor is unlinked
    instead and its payload overwrites that of the node.  The result is the
    node at the point of the physical unlink. *)
Definition DeleteNodeInBST (node : ref) (tree : tref) : M (option ref) :=
  n <- read node ;;
  match AVLDataNode.left n, AVLDataNode.right n with
  | Some _, Some r =>
      k <- node_count ;;
      s <- leftmost k r ;;
      sn <- read s ;;
      modify node (AVLDataNode.set_data (AVLDataNode.data sn)) ;;;
      unlink tree s
  | _, _ => unlink tree node
  end.

(** Modelled from the spec: breadth-first traversal of the host, which is
    not among the sources.  Each node is handed to the callback, then its
    children join the queue. *)
Fixpoint bfs_loop (fuel : nat) (queue : list ref) (callback : ref -> M unit)
  : M unit :=
  match queue with
  | [] => ret tt
  | a :: rest =>
      match fuel with
      | O => diverge
      | S fuel' =>
          callback a ;;;
          n <- read a ;;
          bfs_loop fuel' (rest ++ option_list (AVLDataNode.left n)
                               ++ option_list (AVLDataNode.right n)) callback
      end
  end.

(** Modelled from the spec: the inherited [BFS(callback)], which is not
    among the sources; the traversal starts with the root of [this] in the
    queue. *)
Definition BFS (this : tref) (callback : ref -> M unit) : M unit :=
  t <- read_tree this ;;
  k <- node_count ;;
  bfs_loop k (option_list (AVLTree._root t)) callback.


(** *** Rotation engine *)

(** Modelled from the spec: a single left rotation at [N], which is not
    among the sources.  The right child becomes the subtree root, [N] its
    left child, the displaced grandchild the right child of [N]; the former
    parent of [N] (or the root slot of [tree]) points to the new subtree
    root.  The balance factors of the two nodes whose heights changed are
    recomputed from the old ones. *)
Definition rotate_left (tree : tref) (N : ref) : M ref :=
  n <- read N ;;
  match AVLDataNode.right n with
  | None => throw
  | Some C =>
      c <- read C ;;
      modify N (AVLDataNode.set_right (AVLDataNode.left c)) ;;;
      match AVLDataNode.left c with
      | Some g => modify g (AVLDataNode.set_prev (Some N))
      | None => ret tt
      end ;;;
      replace_child tree (AVLDataNode.prev n) N (Some C) ;;;
      modify C (AVLDataNode.set_left (Some N)) ;;;
      modify N (AVLDataNode.set_prev (Some C)) ;;;
      let nb := AVLDataNode.balance n - 1 - Z.max (AVLDataNode.balance c) 0 in
      let cb := AVLDataNode.balance c - 1 + Z.min nb 0 in
      modify N (AVLDataNode.set_balance nb) ;;;
      modify C (AVLDataNode.set_balance cb) ;;;
      ret C
  end.

(** Modelled from the spec: the mirror image, a single right rotation. *)
Definition rotate_right (tree : tref) (N : ref) : M ref :=
  n <- read N ;;
  match AVLDataNode.left n with
  | None => throw
  | Some C =>
      c <- read C ;;
      modify N (AVLDataNode.set_left (AVLDataNode.right c)) ;;;
      match AVLDataNode.right c with
      | Some g => modify g (AVLDataNode.set_prev (Some N))
      | None => ret tt
      end ;;;
      replace_child tree (AVLDataNode.prev n) N (Some C) ;;;
      modify C (AVLDataNode.set_right (Some N)) ;;;
      modify N (AVLDataNode.set_prev (Some C)) ;;;
      let nb := AVLDataNode.balance n + 1 - Z.min (AVLDataNode.balance c) 0 in
      let cb := AVLDataNode.balance c + 1 + Z.max nb 0 in
      modify N (AVLDataNode.set_balance nb) ;;;
      modify C (AVLDataNode.set_balance cb) ;;;
      ret C
  end.

(** Modelled from the spec: [rebalance(N)], which is not among the sources.
    The four shapes are chosen by the balance factors of [N] and of its
    heavy child; a node whose factor is not 2 or -2 is a programming error
    and fails loudly. *)
Definition rebalance (tree : tref) (N : ref) : M ref :=
  n <- read N ;;
  if AVLDataNode.balance n =? 2 then
    match AVLDataNode.right n with
    | None => throw
    | Some C =>
        c <- read C ;;
        if 0 <=? AVLDataNode.balance c then rotate_left tree N
        else rotate_right tree C ;;; rotate_left tree N
    end
  else if AVLDataNode.balance n =? -2 then
    match AVLDataNode.left n with
    | None => throw
    | Some C =>
        c <- read C ;;
        if AVLDataNode.balance c <=? 0 then rotate_right tree N
        else rotate_left tree C ;;; rotate_right tree N
    end
  else throw.

(** *** Balance propagation *)

(** Modelled from the spec: the step from a node to its parent in a walk,
    which the sources do not show: the parent of [x] together with the side
    on which [x] hangs. *)
Definition parent_link (x : ref) : M (option (ref * Side)) :=
  xn <- read x ;;
  match AVLDataNode.prev xn with
  | None => ret None
  | Some p => pn <- read p ;; ret (Some (p, side_of pn x))
  end.

(** Modelled from the spec: the adjustment of an ancestor after an
    insertion below it, -1 for growth on the left and +1 for growth on the
    right. *)
Definition growth_delta (s : Side) : Z :=
  match s with
  | L => -1
  | R => 1
  end.

(** Modelled from the spec: the adjustment of an ancestor after a removal
    below it, +1 for a removal on the left and -1 for one on the right. *)
Definition removal_delta (s : Side) : Z :=
  match s with
  | L => 1
  | R => -1
  end.

(** Modelled from the spec: post-insertion propagation, which is not among
    the sources.  Each ancestor is adjusted by -1 (growth on the left) or +1
    (growth on the right); 0 stops the walk, 1 or -1 continues it, 2 or -2
    is handed to the rotation engine and stops it. *)
Fixpoint backward_loop (fuel : nat) (tree : tref) (link : option (ref * Side))
  : M unit :=
  match link with
  | None => ret tt
  | Some (A, s) =>
      match fuel with
      | O => diverge
      | S fuel' =>
          a <- read A ;;
          let b := AVLDataNode.balance a + growth_delta s in
          modify A (AVLDataNode.set_balance b) ;;;
          if b =? 0 then ret tt
          else if Z.abs b =? 1 then
            up <- parent_link A ;; backward_loop fuel' tree up
          else
            rebalance tree A ;;; ret tt
      end
  end.

(** Modelled from the spec: [SetBalanceFactorsBackward(node, tree)] of the
    AVL models, which are not among the sources: the post-insertion walk,
    starting at the parent of the inserted node. *)
Definition SetBalanceFactorsBackward (node : ref) (tree : tref) : M unit :=
  up <- parent_link node ;;
  k <- node_count ;;
  backward_loop k tree up.

(** Modelled from the spec: post-deletion propagation, which is not among
    the sources.  Each ancestor is adjusted by +1 (removal on the left) or
    -1 (removal on the right); 1 or -1 continues the walk, 0 stops it, 2 or
    -2 is handed to the rotation engine and the walk continues from the
    parent of the new subtree root.  The result lists the nodes at which a
    rotation was applied, nearest first. *)
Fixpoint forward_loop (fuel : nat) (tree : tref) (link : option (ref * Side))
  : M (list ref) :=
  match link with
  | None => ret []
  | Some (A, s) =>
      match fuel with
      | O => diverge
      | S fuel' =>
          a <- read A ;;
          let b := AVLDataNode.balance a + removal_delta s in
          modify A (AVLDataNode.set_balance b) ;;;
          if b =? 0 then ret []
          else if Z.abs b =? 1 then
            up <- parent_link A ;; forward_loop fuel' tree up
          else
            top <- rebalance tree A ;;
            up <- parent_link top ;;
            rest <- forward_loop fuel' tree up ;;
            ret (A :: rest)
      end
  end.

(** Modelled from the spec: where the post-deletion walk starts, which the
    sources do not show: at the parent of the node that took the place of
    the unlinked one, or, when nothing took its place, at the recorded
    parent of the removed link. *)
Definition forward_start (startNode : option ref) (tree : tref)
  : M (option (ref * Side)) :=
  match startNode with
  | Some s => parent_link s
  | None => t <- read_tree tree ;; ret (AVLTree.removedLink t)
  end.

(** Modelled from the spec: [propagateForward(startNode)], the whole
    post-deletion walk. *)
Definition propagateForward (startNode : option ref) (tree : tref)
  : M (list ref) :=
  up <- forward_start startNode tree ;;
  k <- node_count ;;
  forward_loop k tree up.

(** Modelled from the spec: [SetBalanceFactorsForward(node, tree)] of the
    AVL models, which are not among the sources: the post-deletion walk. *)
Definition SetBalanceFactorsForward (startNode : option ref) (tree : tref)
  : M unit :=
  propagateForward startNode tree ;;; ret tt.

(** Modelled from the spec: [SetBalanceFactorsAfterDeletion(node, tree)] of
    the AVL models, which are not among the sources.  The design document
    has one post-deletion mode; the routine that [deleteNode] calls is taken
    to be that same walk. *)
Definition SetBalanceFactorsAfterDeletion (startNode : option ref) (tree : tref)
  : M unit :=
  propagateForward startNode tree ;;; ret tt.

(** The modelled routines assembled into a host, for a given order of the
    tree and a given default search callback. *)
Definition host (order : AVLDataNode.t -> AVLDataNode.t -> Z)
    (search : ValueCallback) : OrderedTreeHost :=
  Build_OrderedTreeHost
    new_AVLDataNode new_AVLTree search BinarySearch binarySearchNode
    (InsertNodeInBST order) DeleteNodeInBST BFS
    SetBalanceFactorsBackward SetBalanceFactorsForward
    SetBalanceFactorsAfterDeletion.

End SpecHost.

(** ** Observations on a heap *)

(** Height of the subtree below a link by full traversal; the empty
    subtree has height -1. *)
Fixpoint height (fuel : nat) (h : Heap) (o : option ref) : Z :=
  match o, fuel with
  | None, _ => -1
  | Some _, O => -1
  | Some a, S fuel' =>
      match nodes h !! a with
      | None => -1
      | Some n =>
          1 + Z.max (height fuel' h (AVLDataNode.left n))
                    (height fuel' h (AVLDataNode.right n))
      end
  end.

(** Invariant I2 at one node: the stored factor is -1, 0 or 1 and is the
    height of the right subtree minus the height of the left one. *)
Definition balance_ok (h : Heap) (n : AVLDataNode.t) : bool :=
  let k := length (nodes h) in
  (Z.abs (AVLDataNode.balance n) <=? 1) &&
  (AVLDataNode.balance n =?
     height k h (AVLDataNode.right n) - height k h (AVLDataNode.left n)).

(** The references of the nodes below a link, in order (left subtree, node,
    right subtree). *)
Fixpoint inorder (fuel : nat) (h : Heap) (o : option ref) : list ref :=
  match o, fuel with
  | None, _ => []
  | Some _, O => []
  | Some a, S fuel' =>
      match nodes h !! a with
      | None => []
      | Some n =>
          inorder fuel' h (AVLDataNode.left n) ++ a ::
          inorder fuel' h (AVLDataNode.right n)
      end
  end.

Definition root_of (h : Heap) (this : tref) : option ref :=
  match trees h !! this with
  | Some t => AVLTree._root t
  | None => None
  end.

(** The nodes of a tree, in order. *)
Definition tree_nodes (h : Heap) (this : tref) : list ref :=
  inorder (length (nodes h)) h (root_of h this).

Definition payload (h : Heap) (a : ref) : JsVal :=
  match nodes h !! a with
  | Some n => AVLDataNode.data n
  | None => JUndefined
  end.

(** The payloads of a tree, in order. *)
Definition tree_payloads (h : Heap) (this : tref) : list JsVal :=
  map (payload h) (tree_nodes h this).

(** Invariant I2 over a whole tree. *)
Definition I2 (h : Heap) (this : tref) : bool :=
  forallb (fun a => match nodes h !! a with
                    | Some n => balance_ok h n
                    | None => false
                    end) (tree_nodes h this).

(** ** A host over integer payloads *)

Definition key (v : JsVal) : Z :=
  match v with
  | JNum n => n
  | _ => 0
  end.

Definition three_way (a b : Z) : Z :=
  if a <? b then -1 else if b <? a then 1 else 0.

(** Nodes are ordered by their numeric payload; the default search callback
    compares a node's payload with the value sought. *)
Definition numeric_order (c x : AVLDataNode.t) : Z :=
  three_way (key (AVLDataNode.data c)) (key (AVLDataNode.data x)).

Definition numeric_search : ValueCallback :=
  fun c v => three_way (key (AVLDataNode.data c)) (key v).

Definition numeric_host : OrderedTreeHost :=
  SpecHost.host numeric_order numeric_search.

(** The callback locating the node that holds integer [k]. *)
Definition locate (k : Z) : NodeCallback :=
  fun c => three_way (key (AVLDataNode.data c)) k.

(** [new AVLTree()] followed by the insertion of the listed integers. *)
Fixpoint insert_all (this : tref) (ks : list Z) : M unit :=
  match ks with
  | [] => ret tt
  | k :: ks' =>
      insert (host := numeric_host) this (JNum k) JUndefined ;;;
      insert_all this ks'
  end.

Definition build (ks : list Z) : M tref :=
  this <- new_AVLTree (OrderedTreeHost := numeric_host) ;;
  insert_all this ks ;;;
  ret this.

(** Whether every one of a run of insertions into [this] returns and
    leaves I2 in force. *)
Fixpoint I2_along (this : tref) (ks : list Z) (h : Heap) : bool :=
  match ks with
  | [] => true
  | k :: ks' =>
      match insert (host := numeric_host) this (JNum k) JUndefined h with
      | Ret _ h' => I2 h' this && I2_along this ks' h'
      | _ => false
      end
  end.

Definition I2_along_build (ks : list Z) : bool :=
  match new_AVLTree (OrderedTreeHost := numeric_host) empty_heap with
  | Ret this h => I2_along this ks h
  | _ => false
  end.

(** The heap an outcome leaves, if the call returned. *)
Definition heap_of {A} (o : outcome A) : option Heap :=
  match o with
  | Ret _ h => Some h
  | _ => None
  end.

Definition value_of {A} (o : outcome A) : option A :=
  match o with
  | Ret a _ => Some a
  | _ => None
  end.

(** ** Runs used below *)

(** [delete] on a tree built from [ks], keeping the tree reference. *)
Definition build_then_delete (ks : list Z) (k : Z) : M (tref * JsVal) :=
  this <- build ks ;;
  r <- delete (host := numeric_host) this (JNum k) None ;;
  ret (this, r).

(** [deleteNode] on a tree built from [ks], keeping the tree reference. *)
Definition build_then_deleteNode (ks : list Z) (k : Z) : M (tref * option ref) :=
  this <- build ks ;;
  r <- deleteNode (host := numeric_host) this (locate k) ;;
  ret (this, r).

(** The statements of [delete] on a hit, with the forward walk answering the
    nodes at which it rotated. *)
Definition delete_walk (this : tref) (k : Z) : M (list ref) :=
  t <- read_tree this ;;
  node <- SpecHost.BinarySearch (AVLTree._root t) (JNum k) numeric_search ;;
  match node with
  | None => ret []
  | Some node =>
      predecessor <- SpecHost.DeleteNodeInBST node this ;;
      SpecHost.propagateForward predecessor this
  end.

(** Twelve keys, inserted level by level: a tree of height 4 with the
    fewest nodes a balanced tree of that height can have. *)
Definition leaning_keys : list Z :=
  [50; 20; 80; 10; 30; 70; 100; 40; 60; 90; 110; 120].

(** A tree that went through one deletion and two insertions. *)
Definition edited_tree : M tref :=
  this <- build [40; 20; 50; 10; 30] ;;
  delete (host := numeric_host) this (JNum 10) None ;;;
  insert (host := numeric_host) this (JNum 35) JUndefined ;;;
  insert (host := numeric_host) this (JNum 25) JUndefined ;;;
  ret this.

(** Whether [copy] of the tree built from [ks] returns a tree of objects
    allocated by the call, with the payloads of the source in the same
    order and I2 in force, while the source keeps its root and its nodes. *)
Definition copy_faithful (ks : list Z) : bool :=
  match build ks empty_heap with
  | Ret this h0 =>
      match copy (host := numeric_host) this h0 with
      | Ret c h1 =>
          bool_decide (root_of h1 this = root_of h0 this) &&
          bool_decide (tree_nodes h1 this = tree_nodes h0 this) &&
          bool_decide (map key (tree_payloads h1 c)
                       = map key (tree_payloads h0 this)) &&
          bool_decide (take (length (nodes h0)) (map AVLDataNode.balance (nodes h1))
                       = map AVLDataNode.balance (nodes h0)) &&
          forallb (fun a => length (nodes h0) <=? a)%nat (tree_nodes h1 c) &&
          I2 h1 c && I2 h1 this
      | _ => false
      end
  | _ => false
  end.

(** The heap a run from the empty heap leaves. *)
Definition after {A} (m : M A) : Heap :=
  match m empty_heap with
  | Ret _ h => h
  | _ => empty_heap
  end.

(** The heap right after the host unlinked 10 from the tree built from 20,
    10, 30, 40: node 0 (payload 20) has lost its left child and still has
    factor 1. *)
Definition unlinked_10 : Heap :=
  after (this <- build [20; 10; 30; 40] ;;
         SpecHost.DeleteNodeInBST 1%nat this).

(** The first statements of [deleteNode] on a located node: the unlink
    alone, and the unlink followed by the walk. *)
Definition unlink_only (ks : list Z) (node : ref) : M (option ref) :=
  this <- build ks ;;
  SpecHost.DeleteNodeInBST node this.

Definition unlink_and_walk (ks : list Z) (node : ref) : M unit :=
  this <- build ks ;;
  predecessor <- SpecHost.DeleteNodeInBST node this ;;
  SpecHost.SetBalanceFactorsAfterDeletion predecessor this.

(** A heap whose child links descend: some rank decreases along every
    link, and every link leads to a live node. *)
Definition ranked (h : Heap) (rank : ref -> nat) : Prop :=
  forall (a : ref) (n : AVLDataNode.t) (c : ref),
    nodes h !! a = Some n ->
    AVLDataNode.left n = Some c \/ AVLDataNode.right n = Some c ->
    is_Some (nodes h !! c) /\ (rank c < rank a)%nat.

(** Two heaps with the same node objects as far as payloads go. *)
Definition same_payloads (h h' : Heap) : Prop :=
  length (nodes h') = length (nodes h) /\
  forall a : ref,
    (AVLDataNode.data <$> nodes h' !! a) = (AVLDataNode.data <$> nodes h !! a).

(** A computation that leaves every payload where it is. *)
Definition keeps_payloads {A} (m : M A) : Prop :=
  forall (h h' : Heap) (a : A), m h = Ret a h' -> same_payloads h h'.

(** ** print *)

(** What a call of [print] does to the console: it logs lines and returns,
    it throws, or its recursion never ends.  The lines logged before a throw
    are not recorded. *)
Inductive printed : Type :=
| Printed (lines : list string)
| PrintThrow
| PrintDiverge.

(** One statement after the other. *)
Definition printed_seq (p q : printed) : printed :=
  match p with
  | Printed l =>
      match q with
      | Printed r => Printed (l ++ r)
      | PrintThrow => PrintThrow
      | PrintDiverge => PrintDiverge
      end
  | PrintThrow => PrintThrow
  | PrintDiverge => PrintDiverge
  end.

(** [count] copies of [s], for an integer [count]. *)
Definition copies (s : string) (count : nat) : string :=
  Nat.iter count (String.append s) EmptyString.

(** The longest string the engine builds, 2^29 - 24 characters in V8; the
    language leaves the limit to the implementation. *)
Definition string_length_limit : Z := 536870888.

(** [s.repeat(count)] for an integer [count]: a RangeError when [count] is
    negative (Invalid count value) and when the result would be longer than
    a string can be (Invalid string length). *)
Definition js_repeat (s : string) (count : Z) : option string :=
  if (count <? 0) || (string_length_limit <? count * Z.of_nat (String.length s))
  then None
  else Some (copies s (Z.to_nat count)).

(** The callback of [print]; it is taken to be pure and to look at the node
    only. *)
Definition PrintCallback := AVLDataNode.t -> JsVal.

Section Print.
(** ToString, as applied by [+] with a string operand and by a template
    literal. *)
Variable show : JsVal -> string.

(** The line that [print] logs for a node. *)
Definition print_line (indent prefix : string) (callback : PrintCallback)
    (n : AVLDataNode.t) : string :=
  indent +:+ prefix +:+ show (callback n) +:+ " [BF = "
    +:+ show (JNum (AVLDataNode.balance n)) +:+ "]".

(** The body of [print] with every argument given: nothing for null;
    otherwise the line of the node, then the left subtree one level deeper
    under "L--> ", then the right one under "R--> ". *)
Fixpoint print_loop (fuel : nat) (h : Heap) (node : option ref) (level : Z)
    (prefix : string) (callback : PrintCallback) : printed :=
  match node with
  | None => Printed []
  | Some a =>
      match fuel with
      | O => PrintDiverge
      | S fuel' =>
          match nodes h !! a with
          | None => PrintThrow
          | Some n =>
              match js_repeat " " (level * 2) with
              | None => PrintThrow
              | Some indent =>
                  printed_seq
                    (Printed [print_line indent prefix callback n])
                    (printed_seq
                       match AVLDataNode.left n with
                       | Some l =>
                           print_loop fuel' h (Some l) (level + 1) "L--> " callback
                       | None => Printed []
                       end
                       match AVLDataNode.right n with
                       | Some r =>
                           print_loop fuel' h (Some r) (level + 1) "R--> " callback
                       | None => Printed []
                       end)
              end
          end
      end
  end.

(** [print(node = this._root, level = 0, prefix = "Root: ",
    callback = (node) => node.data)].  An omitted argument is [None]; an
    explicit null node is [Some None]. *)
Definition print (this : tref) (node : option (option ref)) (level : option Z)
    (prefix : option string) (callback : option PrintCallback) (h : Heap)
  : printed :=
  print_loop (length (nodes h)) h
    (default (root_of h this) node)
    (default 0 level)
    (default "Root: "%string prefix)
    (default AVLDataNode.data callback).
End Print.

(** ToString on the values of the model, for the runs below.  An integer is
    rendered with all its decimal digits, which is what JavaScript does for
    an integer of magnitude up to 2^53; the runs below render integers of
    one or two digits. *)
Definition to_string (v : JsVal) : string :=
  match v with
  | JUndefined => "undefined"
  | JNull => "null"
  | JBool true => "true"
  | JBool false => "false"
  | JNum n => NilZero.string_of_int (Z.to_int n)
  | JStr s => s
  | JObj _ => "[object Object]"
  end.

(** The heap an outcome leaves; the empty heap when the call did not
    return. *)
Definition left_by {A} (o : outcome A) : Heap :=
  match o with
  | Ret _ h => h
  | _ => empty_heap
  end.

(** Whether the subtree heights differ by at most one at every node of a
    tree, whatever factors the nodes store. *)
Definition shape_balanced (h : Heap) (this : tref) : bool :=
  let k := length (nodes h) in
  forallb (fun a => match nodes h !! a with
                    | Some n =>
                        Z.abs (height k h (AVLDataNode.right n)
                               - height k h (AVLDataNode.left n)) <=? 1
                    | None => false
                    end) (tree_nodes h this).

(** Nine keys, inserted level by level: 50 over 20 (10 and 40, 30 below 40)
    and 80 (70 and 90, 60 below 70). *)
Definition cut_keys : list Z := [50; 20; 80; 10; 40; 70; 90; 30; 60].

(** The objects as [deleteNode] leaves them when it is asked for the node
    holding 20 in the tree built from [cut_keys]: the links are those of the
    run, the nine balance factors are left open.  Node 1, which held 20,
    holds the payload of its successor and has no links; nodes 3 and 4 (10
    and 40) still point to it, node 7 (30) is the one the host unlinked. *)
Definition cut_tree (b0 b1 b2 b3 b4 b5 b6 b7 b8 : Z) : Heap :=
  mkHeap
    [AVLDataNode.mk (JNum 50) JUndefined None (Some 1%nat) (Some 2%nat) b0;
     AVLDataNode.mk (JNum 30) JUndefined None None None b1;
     AVLDataNode.mk (JNum 80) JUndefined (Some 0%nat) (Some 5%nat) (Some 6%nat) b2;
     AVLDataNode.mk (JNum 10) JUndefined (Some 1%nat) None None b3;
     AVLDataNode.mk (JNum 40) JUndefined (Some 1%nat) None None b4;
     AVLDataNode.mk (JNum 70) JUndefined (Some 2%nat) (Some 8%nat) None b5;
     AVLDataNode.mk (JNum 90) JUndefined (Some 2%nat) None None b6;
     AVLDataNode.mk (JNum 30) JUndefined None None None b7;
     AVLDataNode.mk (JNum 60) JUndefined (Some 5%nat) None None b8]
    [AVLTree.mk (Some 0%nat) (Some (4%nat, L))].

(** The numeric host with a constructor that derives no identifier from the
    payload: with it, an identifier found in a node is one that
    [InsertNodeInBST] was handed. *)
Definition bare_host : OrderedTreeHost :=
  Build_OrderedTreeHost
    (fun data => alloc_node (AVLDataNode.mk data JUndefined None None None 0))
    SpecHost.new_AVLTree numeric_search SpecHost.BinarySearch
    SpecHost.binarySearchNode (SpecHost.InsertNodeInBST numeric_order)
    SpecHost.DeleteNodeInBST SpecHost.BFS
    SpecHost.SetBalanceFactorsBackward SpecHost.SetBalanceFactorsForward
    SpecHost.SetBalanceFactorsAfterDeletion.

(** Every line that [print] can log from level [level] on fits in a string:
    the deepest indentation plus the rest of the line stays within the
    limit, so that neither [repeat] nor [+] throws. *)
Definition lines_fit (show : JsVal -> string) (h : Heap) (level : Z)
    (prefix : string) (callback : PrintCallback) : Prop :=
  forall (a : ref) (n : AVLDataNode.t) (pfx : string),
    nodes h !! a = Some n ->
    pfx = prefix \/ pfx = "L--> "%string \/ pfx = "R--> "%string ->
    2 * (level + Z.of_nat (length (nodes h)))
    + Z.of_nat (String.length (print_line show EmptyString pfx callback n))
    <= string_length_limit.

(** * Properties *)

(** ** Heap primitives *)

Lemma bind_ret_l {A B} (m : M A) (k : A -> M B) (h h' : Heap) (a : A) :
  m h = Ret a h' -> bind m k h = k a h'.
Proof. intros E. unfold bind. now rewrite E. Qed.

Lemma read_live (a : ref) (h : Heap) (n : AVLDataNode.t) :
  nodes h !! a = Some n -> read a h = Ret n h.
Proof. intros E. unfold read. now rewrite E. Qed.

Lemma read_tree_live (t : tref) (h : Heap) (x : AVLTree.t) :
  trees h !! t = Some x -> read_tree t h = Ret x h.
Proof. intros E. unfold read_tree. now rewrite E. Qed.

Lemma modify_live (a : ref) f (h : Heap) (n : AVLDataNode.t) :
  nodes h !! a = Some n ->
  modify a f h = Ret tt (mkHeap (<[a := f n]> (nodes h)) (trees h)).
Proof. intros E. unfold modify. now rewrite E. Qed.

Lemma lookup_written (l : list AVLDataNode.t) (a : ref) (n x : AVLDataNode.t) :
  l !! a = Some n -> <[a := x]> l !! a = Some x.
Proof.
  intros E. apply list_lookup_insert_eq. eapply lookup_lt_Some; eassumption.
Qed.

(** The four assignments that close [deleteNode], taken together. *)
Lemma clear_links (a : ref) (h : Heap) (n : AVLDataNode.t) {A} (k : M A) :
  nodes h !! a = Some n ->
  (modify a (AVLDataNode.set_prev None) ;;;
   modify a (AVLDataNode.set_left None) ;;;
   modify a (AVLDataNode.set_right None) ;;;
   modify a (AVLDataNode.set_balance 0) ;;; k) h =
  k (mkHeap (<[a := AVLDataNode.mk (AVLDataNode.data n) (AVLDataNode.id n)
                      None None None 0]> (nodes h)) (trees h)).
Proof.
  intros E.
  rewrite (bind_ret_l _ _ _ _ _ (modify_live a _ h n E)).
  set (h1 := mkHeap _ _).
  assert (E1 : nodes h1 !! a = Some (AVLDataNode.set_prev None n))
    by (apply (lookup_written _ _ n); exact E).
  rewrite (bind_ret_l _ _ _ _ _ (modify_live a _ h1 _ E1)).
  set (h2 := mkHeap _ _).
  assert (E2 : nodes h2 !! a
               = Some (AVLDataNode.set_left None (AVLDataNode.set_prev None n)))
    by (apply (lookup_written _ _ (AVLDataNode.set_prev None n)); exact E1).
  rewrite (bind_ret_l _ _ _ _ _ (modify_live a _ h2 _ E2)).
  set (h3 := mkHeap _ _).
  assert (E3 : nodes h3 !! a
               = Some (AVLDataNode.set_right None
                         (AVLDataNode.set_left None (AVLDataNode.set_prev None n))))
    by (eapply lookup_written; exact E2).
  rewrite (bind_ret_l _ _ _ _ _ (modify_live a _ h3 _ E3)).
  f_equal. subst h1 h2 h3. cbn [nodes trees].
  rewrite !list_insert_insert_eq. reflexivity.
Qed.

(** ** The facade over an arbitrary host *)

Section FacadeProperties.
Context `{host : OrderedTreeHost}.

(** C10: on a tree whose root node holds a falsy payload the [root] getter
    answers null, as it does on an empty tree; it answers the payload of the
    root node only when that payload is truthy. *)
Theorem root_getter_falsy_payload (this : tref) (h : Heap)
    (t : AVLTree.t) (r : ref) (n : AVLDataNode.t) :
  trees h !! this = Some t ->
  AVLTree._root t = Some r ->
  nodes h !! r = Some n ->
  (truthy (AVLDataNode.data n) = false -> root this h = Ret JNull h) /\
  (truthy (AVLDataNode.data n) = true ->
     root this h = Ret (AVLDataNode.data n) h) /\
  (forall (h0 : Heap) (this0 : tref) (t0 : AVLTree.t),
     trees h0 !! this0 = Some t0 -> AVLTree._root t0 = None ->
     root this0 h0 = Ret JNull h0).
Proof.
  intros Ht Hr Hn. repeat split.
  - intros F. unfold root.
    rewrite (bind_ret_l _ _ _ _ _ (read_tree_live _ _ _ Ht)), Hr.
    rewrite (bind_ret_l _ _ _ _ _ (read_live _ _ _ Hn)).
    unfold js_or. now rewrite F.
  - intros F. unfold root.
    rewrite (bind_ret_l _ _ _ _ _ (read_tree_live _ _ _ Ht)), Hr.
    rewrite (bind_ret_l _ _ _ _ _ (read_live _ _ _ Hn)).
    unfold js_or. now rewrite F.
  - intros h0 this0 t0 Ht0 Hr0. unfold root.
    rewrite (bind_ret_l _ _ _ _ _ (read_tree_live _ _ _ Ht0)), Hr0.
    reflexivity.
Qed.

(** C9: what [insert] hands to the host.  Once the constructor has returned
    the node, the rest of [insert] is the structural insertion called with
    one particular identifier, then the walk and [return this].  When the
    payload carries a truthy [id], that identifier is the payload's own
    and the [id] argument plays no part; when it does not, the identifier is
    the [id] argument. *)
Theorem insert_hands_resolved_id (this : tref) (data id : JsVal) (h h1 : Heap)
    (n : ref) :
  new_AVLDataNode data h = Ret n h1 ->
  (truthy (get_id data) = true ->
     insert this data id h
     = (node <- InsertNodeInBST this n (get_id data) ;;
        match node with
        | Some node => SetBalanceFactorsBackward node this
        | None => ret tt
        end ;;;
        ret this) h1) /\
  (truthy (get_id data) = false ->
     insert this data id h
     = (node <- InsertNodeInBST this n id ;;
        match node with
        | Some node => SetBalanceFactorsBackward node this
        | None => ret tt
        end ;;;
        ret this) h1).
Proof.
  intros E. split; intros T; unfold insert, effective_id; rewrite T;
    now rewrite (bind_ret_l _ _ _ _ _ E).
Qed.

(** C7: [insert] answers the tree it was called on.  When the structural
    insertion of the host answers null, no balance routine runs: the call
    returns normally and the heap is the one the host left.  When the host
    answers a node and the backward walk returns, [insert] returns too. *)
Theorem insert_returns_this (this : tref) (data id : JsVal) (h : Heap) :
  (forall (r : tref) (h' : Heap), insert this data id h = Ret r h' -> r = this) /\
  (forall (n : ref) (h1 h2 : Heap),
     new_AVLDataNode data h = Ret n h1 ->
     InsertNodeInBST this n (effective_id data id) h1 = Ret None h2 ->
     insert this data id h = Ret this h2) /\
  (forall (n node : ref) (h1 h2 h3 : Heap),
     new_AVLDataNode data h = Ret n h1 ->
     InsertNodeInBST this n (effective_id data id) h1 = Ret (Some node) h2 ->
     SetBalanceFactorsBackward node this h2 = Ret tt h3 ->
     insert this data id h = Ret this h3).
Proof.
  split; [| split].
  - intros r h'. unfold insert, bind.
    destruct (new_AVLDataNode data h) as [n h1| |]; try discriminate.
    destruct (InsertNodeInBST this n (effective_id data id) h1)
      as [[node|] h2| |]; try discriminate.
    + destruct (SetBalanceFactorsBackward node this h2) as [[] h3| |];
        try discriminate.
      unfold ret. congruence.
    + unfold ret. congruence.
  - intros n h1 h2 E1 E2. unfold insert.
    rewrite (bind_ret_l _ _ _ _ _ E1), (bind_ret_l _ _ _ _ _ E2).
    reflexivity.
  - intros n node h1 h2 h3 E1 E2 E3. unfold insert.
    rewrite (bind_ret_l _ _ _ _ _ E1), (bind_ret_l _ _ _ _ _ E2).
    rewrite (bind_ret_l _ _ _ _ _ E3). reflexivity.
Qed.

(** C4: when the search of the host misses and, as a lookup, leaves the
    heap alone, [delete] answers null and [deleteNode] answers null; neither
    throws, and the heap (every link, payload and balance factor) is the one
    the call started from. *)
Theorem delete_miss_leaves_heap (this : tref) (value : JsVal)
    (callback : option ValueCallback) (locator : NodeCallback)
    (h : Heap) (t : AVLTree.t) :
  trees h !! this = Some t ->
  (BinarySearch (AVLTree._root t) value (default search callback) h = Ret None h ->
     delete this value callback h = Ret JNull h) /\
  (binarySearchNode this locator h = Ret None h ->
     deleteNode this locator h = Ret None h).
Proof.
  intros Ht. split.
  - intros E. unfold delete.
    rewrite (bind_ret_l _ _ _ _ _ (read_tree_live _ _ _ Ht)).
    rewrite (bind_ret_l _ _ _ _ _ E). reflexivity.
  - intros E. unfold deleteNode.
    rewrite (bind_ret_l _ _ _ _ _ E). reflexivity.
Qed.

(** What [delete] answers on a hit: the payload that the located node holds
    once the host has unlinked and the forward walk has run. *)
Lemma delete_hit (this : tref) (value : JsVal) (callback : option ValueCallback)
    (h h1 h2 h3 : Heap) (t : AVLTree.t) (node : ref) (predecessor : option ref)
    (n : AVLDataNode.t) :
  trees h !! this = Some t ->
  BinarySearch (AVLTree._root t) value (default search callback) h
    = Ret (Some node) h1 ->
  DeleteNodeInBST node this h1 = Ret predecessor h2 ->
  SetBalanceFactorsForward predecessor this h2 = Ret tt h3 ->
  nodes h3 !! node = Some n ->
  delete this value callback h = Ret (AVLDataNode.data n) h3.
Proof.
  intros Ht E1 E2 E3 En. unfold delete.
  rewrite (bind_ret_l _ _ _ _ _ (read_tree_live _ _ _ Ht)).
  rewrite (bind_ret_l _ _ _ _ _ E1), (bind_ret_l _ _ _ _ _ E2).
  rewrite (bind_ret_l _ _ _ _ _ E3).
  rewrite (bind_ret_l _ _ _ _ _ (read_live _ _ _ En)). reflexivity.
Qed.

(** The fields of the node that [deleteNode] answers: when the locator
    finds a node and the host routines return, [deleteNode] returns that
    node, and in the heap it leaves the node has no parent link, no left
    child, no right child and balance factor 0; its payload and identifier
    are those the host left in it, and no other object is touched by the
    facade.  Nothing here says that the tree has let go of the node. *)
Theorem deleteNode_returns_cleared_node (this : tref) (locator : NodeCallback)
    (h h1 h2 h3 : Heap) (node : ref) (predecessor : option ref)
    (n : AVLDataNode.t) :
  binarySearchNode this locator h = Ret (Some node) h1 ->
  DeleteNodeInBST node this h1 = Ret predecessor h2 ->
  SetBalanceFactorsAfterDeletion predecessor this h2 = Ret tt h3 ->
  nodes h3 !! node = Some n ->
  exists (h4 : Heap) (n' : AVLDataNode.t),
    deleteNode this locator h = Ret (Some node) h4 /\
    nodes h4 !! node = Some n' /\
    AVLDataNode.prev n' = None /\
    AVLDataNode.left n' = None /\
    AVLDataNode.right n' = None /\
    AVLDataNode.balance n' = 0 /\
    AVLDataNode.data n' = AVLDataNode.data n /\
    AVLDataNode.id n' = AVLDataNode.id n /\
    trees h4 = trees h3 /\
    (forall a : ref, a <> node -> nodes h4 !! a = nodes h3 !! a).
Proof.
  intros E1 E2 E3 En.
  eexists _, _. split.
  - unfold deleteNode.
    rewrite (bind_ret_l _ _ _ _ _ E1), (bind_ret_l _ _ _ _ _ E2).
    rewrite (bind_ret_l _ _ _ _ _ E3).
    rewrite (clear_links node h3 n _ En). reflexivity.
  - cbn [nodes trees]. split.
    + eapply lookup_written; exact En.
    + repeat split; try reflexivity.
      intros a Ha. apply list_lookup_insert_ne. congruence.
Qed.

End FacadeProperties.

(** ** The host of the design document *)

(** The search of the host only reads, and a node it answers is one the
    callback accepts. *)
Lemma binary_search_loop_reads (fuel : nat) (cmp : AVLDataNode.t -> Z) :
  forall (cur : option ref) (h h' : Heap) (r : option ref),
    SpecHost.binary_search_loop fuel cur cmp h = Ret r h' ->
    h' = h /\
    forall a : ref, r = Some a ->
      exists n : AVLDataNode.t, nodes h !! a = Some n /\ cmp n = 0.
Proof.
  induction fuel as [|fuel IH]; intros [a|] h h' r E; cbn in E.
  - discriminate.
  - injection E as <- <-. split; [reflexivity | discriminate].
  - unfold bind, read in E.
    destruct (nodes h !! a) as [n|] eqn:En; [| discriminate].
    destruct (cmp n =? 0) eqn:C0.
    + injection E as <- <-. split; [reflexivity |].
      intros a' [= <-]. exists n. split; [exact En | lia].
    + destruct (cmp n <? 0); eapply IH; exact E.
  - injection E as <- <-. split; [reflexivity | discriminate].
Qed.

Lemma BinarySearch_reads (root : option ref) (value : JsVal)
    (callback : ValueCallback) (h h' : Heap) (r : option ref) :
  SpecHost.BinarySearch root value callback h = Ret r h' ->
  h' = h /\
  forall a : ref, r = Some a ->
    exists n : AVLDataNode.t, nodes h !! a = Some n /\ callback n value = 0.
Proof.
  unfold SpecHost.BinarySearch, bind, node_count. intros E.
  apply binary_search_loop_reads in E. exact E.
Qed.

Lemma binarySearchNode_reads (this : tref) (locator : NodeCallback)
    (h h' : Heap) (r : option ref) :
  SpecHost.binarySearchNode this locator h = Ret r h' ->
  h' = h /\
  forall a : ref, r = Some a ->
    exists n : AVLDataNode.t, nodes h !! a = Some n /\ locator n = 0.
Proof.
  unfold SpecHost.binarySearchNode, bind, read_tree, node_count. intros E.
  destruct (trees h !! this); [| discriminate].
  apply binary_search_loop_reads in E. exact E.
Qed.

(** A value that no node object matches is never found. *)
Lemma BinarySearch_absent (root : option ref) (value : JsVal)
    (callback : ValueCallback) (h h' : Heap) (r : option ref) :
  (forall (a : ref) (n : AVLDataNode.t),
     nodes h !! a = Some n -> callback n value <> 0) ->
  SpecHost.BinarySearch root value callback h = Ret r h' ->
  r = None /\ h' = h.
Proof.
  intros Habs E. apply BinarySearch_reads in E as [-> Hhit].
  split; [| reflexivity].
  destruct r as [a|]; [| reflexivity].
  destruct (Hhit a eq_refl) as (n & En & C).
  exfalso. exact (Habs a n En C).
Qed.

(** A rejected structural insertion has only read the tree. *)
Lemma insert_loop_rejects order (fuel : nat) :
  forall (cur n : ref) (h h' : Heap),
    SpecHost.insert_loop order fuel cur n h = Ret None h' -> h' = h.
Proof.
  induction fuel as [|fuel IH]; intros cur n h h' E; cbn in E; [discriminate|].
  unfold bind at 1, read at 1 in E.
  destruct (nodes h !! cur) as [c|] eqn:Ec; [| discriminate].
  unfold bind at 1, read at 1 in E.
  destruct (nodes h !! n) as [x|] eqn:Ex; [| discriminate].
  destruct (order c x =? 0).
  - now injection E as <-.
  - destruct (order c x <? 0).
    + destruct (AVLDataNode.right c) as [r|]; [eapply IH; exact E |].
      unfold bind in E.
      destruct (modify cur _ h) as [[] h1| |]; try discriminate.
      destruct (modify n _ h1) as [[] h2| |]; discriminate.
    + destruct (AVLDataNode.left c) as [l|]; [eapply IH; exact E |].
      unfold bind in E.
      destruct (modify cur _ h) as [[] h1| |]; try discriminate.
      destruct (modify n _ h1) as [[] h2| |]; discriminate.
Qed.

(** When the host rejects a node, every tree object and every node object
    other than the rejected one is as before. *)
Lemma InsertNodeInBST_rejects order (tree : tref) (n : ref) (id : JsVal)
    (h h' : Heap) :
  SpecHost.InsertNodeInBST order tree n id h = Ret None h' ->
  trees h' = trees h /\
  length (nodes h') = length (nodes h) /\
  forall a : ref, a <> n -> nodes h' !! a = nodes h !! a.
Proof.
  unfold SpecHost.InsertNodeInBST. intros E.
  unfold bind at 1 in E.
  assert (F : forall h1 : Heap,
             (match id with
              | JUndefined => ret tt
              | _ => modify n (AVLDataNode.set_id id)
              end) h = Ret tt h1 ->
             trees h1 = trees h /\
             length (nodes h1) = length (nodes h) /\
             forall a : ref, a <> n -> nodes h1 !! a = nodes h !! a).
  { intros h1 E1.
    assert (G : ret tt h = Ret tt h1 \/ modify n (AVLDataNode.set_id id) h = Ret tt h1)
      by (destruct id; auto).
    destruct G as [G|G].
    - injection G as <-. auto.
    - unfold modify in G. destruct (nodes h !! n); [| discriminate].
      injection G as <-. cbn. repeat split.
      + apply length_insert.
      + intros a Ha. apply list_lookup_insert_ne. congruence. }
  destruct (match id with JUndefined => ret tt | _ => _ end h)
    as [[] h1| |] eqn:E1; try discriminate.
  specialize (F h1 eq_refl).
  unfold bind at 1, read_tree in E.
  destruct (trees h1 !! tree) as [t|]; [| discriminate].
  destruct (AVLTree._root t) as [r|].
  - unfold bind at 1, node_count in E.
    apply insert_loop_rejects in E. now subst h'.
  - unfold bind in E.
    destruct (modify_tree tree _ h1) as [[] h2| |]; discriminate.
Qed.

(** With the modelled host: a rejected insertion makes [insert] return the
    tree with every tree object and every node object that existed before
    the call unchanged; the only trace is the node object that was created
    for the payload and never linked. *)
Lemma insert_rejected_keeps_objects order dflt (this : tref) (data id : JsVal)
    (h h2 : Heap) :
  SpecHost.InsertNodeInBST order this (length (nodes h)) (effective_id data id)
    (mkHeap (nodes h ++ [AVLDataNode.mk data (get_id data) None None None 0])
            (trees h)) = Ret None h2 ->
  insert (host := SpecHost.host order dflt) this data id h = Ret this h2 /\
  trees h2 = trees h /\
  forall a : ref, (a < length (nodes h))%nat -> nodes h2 !! a = nodes h !! a.
Proof.
  intros E. split.
  - unfold insert. cbn [new_AVLDataNode InsertNodeInBST SpecHost.host].
    unfold SpecHost.new_AVLDataNode, alloc_node, bind at 1.
    rewrite (bind_ret_l _ _ _ _ _ E). reflexivity.
  - apply InsertNodeInBST_rejects in E as (Et & _ & En). cbn [nodes trees] in *.
    split; [exact Et |].
    intros a Ha. rewrite En by lia. now apply lookup_app_l.
Qed.

(** On a heap whose links descend the search returns, whatever the
    callback answers. *)
Lemma binary_search_loop_returns (rank : ref -> nat) (cmp : AVLDataNode.t -> Z)
    (h : Heap) :
  ranked h rank ->
  forall (fuel : nat) (cur : option ref),
    (forall a : ref, cur = Some a ->
       is_Some (nodes h !! a) /\ (rank a < fuel)%nat) ->
    exists r : option ref, SpecHost.binary_search_loop fuel cur cmp h = Ret r h.
Proof.
  intros Hr. induction fuel as [|fuel IH]; intros [a|] Hcur.
  - destruct (Hcur a eq_refl) as [_ Hlt]. lia.
  - exists None. reflexivity.
  - destruct (Hcur a eq_refl) as [[n En] Hlt]. cbn.
    rewrite (bind_ret_l _ _ _ _ _ (read_live _ _ _ En)).
    destruct (cmp n =? 0); [exists (Some a); reflexivity |].
    destruct (cmp n <? 0); apply IH; intros c Ec.
    + destruct (Hr a n c En (or_intror Ec)) as [Hc Hlt']. split; [exact Hc | lia].
    + destruct (Hr a n c En (or_introl Ec)) as [Hc Hlt']. split; [exact Hc | lia].
  - exists None. reflexivity.
Qed.

(** With the modelled host: a value that no node matches, on a tree whose
    links descend, makes [delete] answer null and leave the heap as it
    is. *)
Lemma delete_absent_value order dflt (rank : ref -> nat) (this : tref)
    (value : JsVal) (callback : option ValueCallback) (h : Heap)
    (t : AVLTree.t) :
  trees h !! this = Some t ->
  ranked h rank ->
  (forall a : ref, AVLTree._root t = Some a ->
     is_Some (nodes h !! a) /\ (rank a < length (nodes h))%nat) ->
  (forall (a : ref) (n : AVLDataNode.t),
     nodes h !! a = Some n -> default dflt callback n value <> 0) ->
  delete (host := SpecHost.host order dflt) this value callback h
    = Ret JNull h.
Proof.
  intros Ht Hr Hroot Habs.
  destruct (binary_search_loop_returns rank
              (fun n => default dflt callback n value) h Hr
              (length (nodes h)) (AVLTree._root t) Hroot) as [r Er].
  assert (E : SpecHost.BinarySearch (AVLTree._root t) value
                (default dflt callback) h = Ret r h) by exact Er.
  destruct (BinarySearch_absent _ _ _ _ _ _ Habs E) as [-> _].
  unfold delete.
  rewrite (bind_ret_l _ _ _ _ _ (read_tree_live _ _ _ Ht)).
  cbn [BinarySearch SpecHost.host search].
  rewrite (bind_ret_l _ _ _ _ _ E). reflexivity.
Qed.

(** The same for [deleteNode] and a locator that accepts no node. *)
Lemma deleteNode_absent_node order dflt (rank : ref -> nat) (this : tref)
    (locator : NodeCallback) (h : Heap) (t : AVLTree.t) :
  trees h !! this = Some t ->
  ranked h rank ->
  (forall a : ref, AVLTree._root t = Some a ->
     is_Some (nodes h !! a) /\ (rank a < length (nodes h))%nat) ->
  (forall (a : ref) (n : AVLDataNode.t),
     nodes h !! a = Some n -> locator n <> 0) ->
  deleteNode (host := SpecHost.host order dflt) this locator h = Ret None h.
Proof.
  intros Ht Hr Hroot Habs.
  destruct (binary_search_loop_returns rank locator h Hr
              (length (nodes h)) (AVLTree._root t) Hroot) as [r Er].
  assert (E : SpecHost.binarySearchNode this locator h = Ret r h).
  { unfold SpecHost.binarySearchNode.
    rewrite (bind_ret_l _ _ _ _ _ (read_tree_live _ _ _ Ht)). exact Er. }
  destruct (binarySearchNode_reads _ _ _ _ _ E) as [_ Hhit].
  assert (r = None) as ->.
  { destruct r as [a|]; [| reflexivity].
    destruct (Hhit a eq_refl) as (n & En & C). exfalso. exact (Habs a n En C). }
  unfold deleteNode.
  cbn [binarySearchNode SpecHost.host].
  rewrite (bind_ret_l _ _ _ _ _ E). reflexivity.
Qed.

(** The links of the tree built from 20, 10, 30 descend. *)
Lemma ranked_small_tree :
  ranked (after (build [20; 10; 30])) (fun a => if Nat.eqb a 0 then 1 else 0)%nat.
Proof.
  intros a n c En Hc.
  destruct a as [|[|[|a]]]; vm_compute in En; [| | | discriminate];
    injection En as <-; cbn in Hc; destruct Hc as [[= <-]|[= <-]];
    (split; [eexists; reflexivity | cbn; lia]).
Qed.

Lemma delete_absent_value_small :
  delete (host := numeric_host) 0%nat (JNum 25) None (after (build [20; 10; 30]))
  = Ret JNull (after (build [20; 10; 30])).
Proof.
  apply (delete_absent_value numeric_order numeric_search _ 0%nat (JNum 25) None
           (after (build [20; 10; 30])) (AVLTree.mk (Some 0%nat) None)
           eq_refl ranked_small_tree).
  - intros a [= <-]. split; [eexists; reflexivity | vm_compute; lia].
  - intros a n En.
    destruct a as [|[|[|a]]]; vm_compute in En; [| | | discriminate];
      injection En as <-; vm_compute; discriminate.
Qed.

(** *** Payloads under the balance core *)

Lemma same_payloads_refl (h : Heap) : same_payloads h h.
Proof. split; reflexivity. Qed.

Lemma same_payloads_trans (h1 h2 h3 : Heap) :
  same_payloads h1 h2 -> same_payloads h2 h3 -> same_payloads h1 h3.
Proof.
  intros [L1 P1] [L2 P2]. split; [congruence |].
  intros a. now rewrite P2, P1.
Qed.

Lemma keeps_payloads_ret {A} (a : A) : keeps_payloads (ret a).
Proof. intros h h' b [= _ <-]. apply same_payloads_refl. Qed.

Lemma keeps_payloads_throw {A} : keeps_payloads (@throw A).
Proof. intros h h' b E. discriminate. Qed.

Lemma keeps_payloads_diverge {A} : keeps_payloads (@diverge A).
Proof. intros h h' b E. discriminate. Qed.

Lemma keeps_payloads_bind {A B} (m : M A) (k : A -> M B) :
  keeps_payloads m -> (forall a : A, keeps_payloads (k a)) ->
  keeps_payloads (bind m k).
Proof.
  intros Hm Hk h h' b E. unfold bind in E.
  destruct (m h) as [a h1| |] eqn:Em; try discriminate.
  eapply same_payloads_trans; [eapply Hm; exact Em | eapply Hk; exact E].
Qed.

Lemma keeps_payloads_read (a : ref) : keeps_payloads (read a).
Proof.
  intros h h' n E. unfold read in E.
  destruct (nodes h !! a); [| discriminate].
  injection E as _ <-. apply same_payloads_refl.
Qed.

Lemma keeps_payloads_read_tree (t : tref) : keeps_payloads (read_tree t).
Proof.
  intros h h' n E. unfold read_tree in E.
  destruct (trees h !! t); [| discriminate].
  injection E as _ <-. apply same_payloads_refl.
Qed.

Lemma keeps_payloads_node_count : keeps_payloads node_count.
Proof. intros h h' n [= _ <-]. apply same_payloads_refl. Qed.

Lemma keeps_payloads_modify_tree (t : tref) f : keeps_payloads (modify_tree t f).
Proof.
  intros h h' n E. unfold modify_tree in E.
  destruct (trees h !! t); [| discriminate].
  injection E as _ <-. split; reflexivity.
Qed.

(** An assignment to a link or to the balance field. *)
Lemma keeps_payloads_modify (a : ref) (f : AVLDataNode.t -> AVLDataNode.t) :
  (forall n : AVLDataNode.t, AVLDataNode.data (f n) = AVLDataNode.data n) ->
  keeps_payloads (modify a f).
Proof.
  intros Hf h h' [] E. unfold modify in E.
  destruct (nodes h !! a) as [n|] eqn:En; [| discriminate].
  injection E as <-. split; cbn [nodes].
  - apply length_insert.
  - intros i. destruct (decide (i = a)) as [->|Hne].
    + rewrite (lookup_written _ _ n _ En), En. cbn. now rewrite Hf.
    + rewrite list_lookup_insert_ne by congruence. reflexivity.
Qed.

Ltac keeps_payloads_step :=
  match goal with
  | |- keeps_payloads (bind _ _) => apply keeps_payloads_bind; [| intros ?]
  | |- keeps_payloads (ret _) => apply keeps_payloads_ret
  | |- keeps_payloads throw => apply keeps_payloads_throw
  | |- keeps_payloads diverge => apply keeps_payloads_diverge
  | |- keeps_payloads (read _) => apply keeps_payloads_read
  | |- keeps_payloads (read_tree _) => apply keeps_payloads_read_tree
  | |- keeps_payloads node_count => apply keeps_payloads_node_count
  | |- keeps_payloads (modify_tree _ _) => apply keeps_payloads_modify_tree
  | |- keeps_payloads (modify _ _) =>
      apply keeps_payloads_modify; intros []; reflexivity
  | |- keeps_payloads (match ?x with _ => _ end) => destruct x
  | |- keeps_payloads (let _ := _ in _) => cbv zeta
  end.

Ltac keeps_payloads_auto := repeat (keeps_payloads_step; try assumption).

Lemma keeps_payloads_replace_child (tree : tref) (parent : option ref)
    (old : ref) (new : option ref) :
  keeps_payloads (SpecHost.replace_child tree parent old new).
Proof. unfold SpecHost.replace_child. keeps_payloads_auto. Qed.

Lemma keeps_payloads_parent_link (x : ref) :
  keeps_payloads (SpecHost.parent_link x).
Proof. unfold SpecHost.parent_link. keeps_payloads_auto. Qed.

Lemma keeps_payloads_rotate_left (tree : tref) (N : ref) :
  keeps_payloads (SpecHost.rotate_left tree N).
Proof.
  unfold SpecHost.rotate_left.
  keeps_payloads_auto; apply keeps_payloads_replace_child.
Qed.

Lemma keeps_payloads_rotate_right (tree : tref) (N : ref) :
  keeps_payloads (SpecHost.rotate_right tree N).
Proof.
  unfold SpecHost.rotate_right.
  keeps_payloads_auto; apply keeps_payloads_replace_child.
Qed.

Lemma keeps_payloads_rebalance (tree : tref) (N : ref) :
  keeps_payloads (SpecHost.rebalance tree N).
Proof.
  unfold SpecHost.rebalance.
  keeps_payloads_auto;
    first [apply keeps_payloads_rotate_left | apply keeps_payloads_rotate_right].
Qed.

Lemma keeps_payloads_forward_loop (tree : tref) (fuel : nat) :
  forall link : option (ref * Side),
    keeps_payloads (SpecHost.forward_loop fuel tree link).
Proof.
  induction fuel as [|fuel IH]; intros [[A s]|]; cbn [SpecHost.forward_loop];
    keeps_payloads_auto;
    first [apply IH | apply keeps_payloads_parent_link
           | apply keeps_payloads_rebalance].
Qed.

Lemma keeps_payloads_backward_loop (tree : tref) (fuel : nat) :
  forall link : option (ref * Side),
    keeps_payloads (SpecHost.backward_loop fuel tree link).
Proof.
  induction fuel as [|fuel IH]; intros [[A s]|]; cbn [SpecHost.backward_loop];
    keeps_payloads_auto;
    first [apply IH | apply keeps_payloads_parent_link
           | apply keeps_payloads_rebalance].
Qed.

Lemma keeps_payloads_unlink (tree : tref) (a : ref) :
  keeps_payloads (SpecHost.unlink tree a).
Proof.
  unfold SpecHost.unlink.
  keeps_payloads_auto; apply keeps_payloads_replace_child.
Qed.

(** The three balance routines rewrite links and factors only. *)
Lemma keeps_payloads_SetBalanceFactorsForward (start : option ref) (tree : tref) :
  keeps_payloads (SpecHost.SetBalanceFactorsForward start tree).
Proof.
  unfold SpecHost.SetBalanceFactorsForward, SpecHost.propagateForward,
    SpecHost.forward_start.
  keeps_payloads_auto;
    first [apply keeps_payloads_forward_loop | apply keeps_payloads_parent_link].
Qed.

Lemma keeps_payloads_SetBalanceFactorsBackward (node : ref) (tree : tref) :
  keeps_payloads (SpecHost.SetBalanceFactorsBackward node tree).
Proof.
  unfold SpecHost.SetBalanceFactorsBackward.
  keeps_payloads_auto;
    first [apply keeps_payloads_backward_loop | apply keeps_payloads_parent_link].
Qed.

(** Unlinking a node with two children leaves the payload of its in-order
    successor in it. *)
Lemma DeleteNodeInBST_overwrites (tree : tref) (h h2 : Heap)
    (node l r s : ref) (n sn : AVLDataNode.t) (p : option ref) :
  nodes h !! node = Some n ->
  AVLDataNode.left n = Some l ->
  AVLDataNode.right n = Some r ->
  SpecHost.leftmost (length (nodes h)) r h = Ret s h ->
  nodes h !! s = Some sn ->
  SpecHost.DeleteNodeInBST node tree h = Ret p h2 ->
  (AVLDataNode.data <$> nodes h2 !! node) = Some (AVLDataNode.data sn).
Proof.
  intros En El Er Esucc Esn E.
  unfold SpecHost.DeleteNodeInBST in E.
  rewrite (bind_ret_l _ _ _ _ _ (read_live _ _ _ En)) in E.
  rewrite El, Er in E.
  unfold bind at 1, node_count at 1 in E.
  rewrite (bind_ret_l _ _ _ _ _ Esucc) in E.
  rewrite (bind_ret_l _ _ _ _ _ (read_live _ _ _ Esn)) in E.
  rewrite (bind_ret_l _ _ _ _ _ (modify_live _ _ _ _ En)) in E.
  apply keeps_payloads_unlink in E as [_ P]. rewrite P. cbn [nodes].
  now rewrite (lookup_written _ _ n _ En).
Qed.

(** With the modelled host: when the located node has two children,
    whatever [delete] answers is the payload of the in-order successor. *)
Lemma delete_two_children_answer order dflt (this : tref) (value : JsVal)
    (callback : option ValueCallback) (h : Heap) (t : AVLTree.t)
    (node l r s : ref) (n sn : AVLDataNode.t) :
  trees h !! this = Some t ->
  SpecHost.BinarySearch (AVLTree._root t) value (default dflt callback) h
    = Ret (Some node) h ->
  nodes h !! node = Some n ->
  AVLDataNode.left n = Some l ->
  AVLDataNode.right n = Some r ->
  SpecHost.leftmost (length (nodes h)) r h = Ret s h ->
  nodes h !! s = Some sn ->
  forall (v : JsVal) (h' : Heap),
    delete (host := SpecHost.host order dflt) this value callback h = Ret v h' ->
    v = AVLDataNode.data sn.
Proof.
  intros Ht Es En El Er Esucc Esn v h' E.
  unfold delete in E.
  rewrite (bind_ret_l _ _ _ _ _ (read_tree_live _ _ _ Ht)) in E.
  cbn [BinarySearch DeleteNodeInBST SetBalanceFactorsForward SpecHost.host search]
    in E.
  rewrite (bind_ret_l _ _ _ _ _ Es) in E.
  unfold bind at 1 in E.
  destruct (SpecHost.DeleteNodeInBST node this h) as [p h2| |] eqn:Ed;
    try discriminate.
  pose proof (DeleteNodeInBST_overwrites _ _ _ _ _ _ _ _ _ _ En El Er Esucc Esn Ed)
    as P2.
  unfold bind at 1 in E.
  destruct (SpecHost.SetBalanceFactorsForward p this h2) as [[] h3| |] eqn:Ew;
    try discriminate.
  apply keeps_payloads_SetBalanceFactorsForward in Ew as [_ P3].
  unfold bind, read in E.
  specialize (P3 node). rewrite P2 in P3.
  destruct (nodes h3 !! node) as [n3|]; [| discriminate].
  injection E as <- _. cbn in P3. congruence.
Qed.

(** The step of the forward walk at an ancestor whose adjusted factor is 2
    or -2. *)
Lemma forward_loop_rotation_step (fuel : nat) (tree : tref) (A : ref) (s : Side)
    (h : Heap) (a : AVLDataNode.t) :
  nodes h !! A = Some a ->
  Z.abs (AVLDataNode.balance a + SpecHost.removal_delta s) = 2 ->
  SpecHost.forward_loop (S fuel) tree (Some (A, s)) h =
  (top <- SpecHost.rebalance tree A ;;
   up <- SpecHost.parent_link top ;;
   rest <- SpecHost.forward_loop fuel tree up ;;
   ret (A :: rest))
    (mkHeap (<[A := AVLDataNode.set_balance
                      (AVLDataNode.balance a + SpecHost.removal_delta s) a]> (nodes h))
            (trees h)).
Proof.
  intros Ea Hb. cbn [SpecHost.forward_loop].
  rewrite (bind_ret_l _ _ _ _ _ (read_live _ _ _ Ea)).
  rewrite (bind_ret_l _ _ _ _ _ (modify_live _ _ _ _ Ea)).
  destruct (AVLDataNode.balance a + SpecHost.removal_delta s =? 0) eqn:B0; [lia |].
  destruct (Z.abs (AVLDataNode.balance a + SpecHost.removal_delta s) =? 1) eqn:B1; [lia |].
  reflexivity.
Qed.

(** C5: in the forward walk, an ancestor whose adjusted factor is 2 or -2
    is rotated and the walk goes on from the parent of the new subtree root
    with the remaining fuel; nothing makes it stop there.  Deleting 10 from
    the twelve-node tree rotates at node 1 (payload 20) and then at its
    former parent, node 0 (payload 50), before [delete] returns. *)
Theorem forward_walk_resumes_after_rotation :
  (forall (fuel : nat) (tree : tref) (A : ref) (s : Side) (h : Heap)
          (a : AVLDataNode.t),
     nodes h !! A = Some a ->
     Z.abs (AVLDataNode.balance a + SpecHost.removal_delta s) = 2 ->
     SpecHost.forward_loop (S fuel) tree (Some (A, s)) h =
     (top <- SpecHost.rebalance tree A ;;
      up <- SpecHost.parent_link top ;;
      rest <- SpecHost.forward_loop fuel tree up ;;
      ret (A :: rest))
       (mkHeap (<[A := AVLDataNode.set_balance
                         (AVLDataNode.balance a + SpecHost.removal_delta s) a]> (nodes h))
               (trees h))) /\
  (let h := after (build leaning_keys) in
   build leaning_keys empty_heap = Ret 0%nat h /\
   I2 h 0%nat = true /\
   value_of (delete_walk 0%nat 10 h) = Some [1%nat; 0%nat] /\
   heap_of (delete (host := numeric_host) 0%nat (JNum 10) None h)
     = heap_of (delete_walk 0%nat 10 h) /\
   value_of (delete (host := numeric_host) 0%nat (JNum 10) None h)
     = Some (JNum 10)).
Proof.
  split.
  - intros. now apply forward_loop_rotation_step.
  - vm_compute. repeat split; reflexivity.
Qed.

Lemma forward_walk_resumes_after_rotation_witness :
  exists a : AVLDataNode.t,
    nodes unlinked_10 !! 0%nat = Some a /\
    Z.abs (AVLDataNode.balance a + SpecHost.removal_delta L) = 2 /\
    SpecHost.forward_loop 4 0%nat (Some (0%nat, L)) unlinked_10 =
    (top <- SpecHost.rebalance 0%nat 0%nat ;;
     up <- SpecHost.parent_link top ;;
     rest <- SpecHost.forward_loop 3 0%nat up ;;
     ret (0%nat :: rest))
      (mkHeap (<[0%nat := AVLDataNode.set_balance
                           (AVLDataNode.balance a + SpecHost.removal_delta L) a]>
                 (nodes unlinked_10))
              (trees unlinked_10)).
Proof.
  exists (AVLDataNode.mk (JNum 20) JUndefined None None (Some 2%nat) 1).
  split; [reflexivity |]. split; [reflexivity |].
  apply (proj1 forward_walk_resumes_after_rotation); reflexivity.
Defined.

(** ** Runs on the host of the design document *)

(** Insertions alone keep I2 on this host: in whatever order the keys 1 to
    7 are inserted, every insertion returns and I2 holds after it. *)
Lemma insertions_keep_I2_seven :
  forallb I2_along_build (permutations [1; 2; 3; 4; 5; 6; 7]) = true.
Proof. vm_compute. reflexivity. Qed.

(** On trees that insertions alone have built, [copy] behaves: for every
    order of the keys 1 to 7 the copy is made of new objects, holds the same
    payloads, satisfies I2, and the source keeps its root, its nodes and its
    balance factors. *)
Lemma copy_faithful_seven :
  forallb copy_faithful (permutations [1; 2; 3; 4; 5; 6; 7]) = true.
Proof. vm_compute. reflexivity. Qed.

(** The post-deletion walk as the design document words it, on the
    document's own scenario C.  The tree built from 4, 2, 6, 1, 3, 5, 7
    satisfies I2.  Deleting 4 unlinks the successor 5 below node 2 (payload
    6); the forward walk sets the factor of node 2 to 1, goes on, and
    subtracts 1 at the root.  Both subtrees of the root have height 1 when
    [delete] returns, but its stored factor is -1.  In [edited_tree] a
    factor left stale in the same way lets two later insertions pass without
    a rotation: the subtrees of its root have heights 2 and 0, and the
    stored factor is -1. *)
Theorem delete_leaves_stale_factor :
  let h0 := after (build [4; 2; 6; 1; 3; 5; 7]) in
  let h1 := after (build_then_delete [4; 2; 6; 1; 3; 5; 7] 4) in
  let h2 := after edited_tree in
  (build [4; 2; 6; 1; 3; 5; 7] empty_heap = Ret 0%nat h0 /\
   I2 h0 0%nat = true /\
   heap_of (delete (host := numeric_host) 0%nat (JNum 4) None h0) = Some h1 /\
   root_of h1 0%nat = Some 0%nat /\
   nodes h1 !! 0%nat
     = Some (AVLDataNode.mk (JNum 5) JUndefined None (Some 1%nat) (Some 2%nat) (-1)) /\
   height 7 h1 (Some 1%nat) = 1 /\
   height 7 h1 (Some 2%nat) = 1 /\
   I2 h1 0%nat = false) /\
  (edited_tree empty_heap = Ret 0%nat h2 /\
   root_of h2 0%nat = Some 0%nat /\
   nodes h2 !! 0%nat
     = Some (AVLDataNode.mk (JNum 40) JUndefined None (Some 4%nat) (Some 2%nat) (-1)) /\
   height 7 h2 (Some 4%nat) = 2 /\
   height 7 h2 (Some 2%nat) = 0 /\
   I2 h2 0%nat = false).
Proof. vm_compute. repeat split; reflexivity. Qed.

(** C3 (does not hold on this host): in the tree built from 4, 2, 6, 1, 3,
    5, 7 the search for 4 locates node 0, which holds 4 and has two
    children.  [delete] answers 5, the payload of the successor that the
    host wrote into node 0 before [node.data] was read. *)
Theorem delete_answers_successor_payload :
  let h0 := after (build [4; 2; 6; 1; 3; 5; 7]) in
  build [4; 2; 6; 1; 3; 5; 7] empty_heap = Ret 0%nat h0 /\
  SpecHost.BinarySearch (root_of h0 0%nat) (JNum 4) numeric_search h0
    = Ret (Some 0%nat) h0 /\
  payload h0 0%nat = JNum 4 /\
  value_of (delete (host := numeric_host) 0%nat (JNum 4) None h0)
    = Some (JNum 5).
Proof. vm_compute. repeat split; reflexivity. Qed.

(** C6 (does not hold on this host): in the tree built from 20, 10, 30 both
    entry points locate node 0.  After [delete] the tree holds 10 and 30.
    After [deleteNode] the tree holds 30 alone: node 0, which the host kept
    in the tree with the payload of the successor, had its links cleared by
    the facade, and node 10 is no longer reachable. *)
Theorem delete_and_deleteNode_differ :
  let h0 := after (build [20; 10; 30]) in
  let h1 := after (build_then_delete [20; 10; 30] 20) in
  let h2 := after (build_then_deleteNode [20; 10; 30] 20) in
  build [20; 10; 30] empty_heap = Ret 0%nat h0 /\
  SpecHost.BinarySearch (root_of h0 0%nat) (JNum 20) numeric_search h0
    = Ret (Some 0%nat) h0 /\
  SpecHost.binarySearchNode 0%nat (locate 20) h0 = Ret (Some 0%nat) h0 /\
  delete (host := numeric_host) 0%nat (JNum 20) None h0 = Ret (JNum 30) h1 /\
  deleteNode (host := numeric_host) 0%nat (locate 20) h0 = Ret (Some 0%nat) h2 /\
  root_of h1 0%nat = Some 0%nat /\
  root_of h2 0%nat = Some 0%nat /\
  tree_payloads h1 0%nat = [JNum 10; JNum 30] /\
  tree_payloads h2 0%nat = [JNum 30] /\
  (AVLDataNode.left <$> nodes h1 !! 0%nat) = Some (Some 1%nat) /\
  (AVLDataNode.left <$> nodes h2 !! 0%nat) = Some None.
Proof. vm_compute. repeat split; reflexivity. Qed.

(** C2 (does not hold on this host): the tree built from [cut_keys] has
    nine node objects and root 0.  [deleteNode] asked for the node holding
    20 answers node 1, which the host kept in the tree.  Once the host has
    unlinked the successor, every node of the tree has subtrees whose
    heights differ by at most one, so no rotation is due, and the walk
    applies none.  The objects are left as [cut_tree] has them: node 1
    without links, below the root, whose right subtree has height 2.
    Whatever balance factors the nine objects carry, [copy] of that tree
    rotates at the root of the copy after re-inserting 60 and stores the new
    subtree root, node 12, in the root slot of the tree it was given, which
    is the tree being copied.  When [copy] returns, the source tree hangs
    off node 12 and consists of nodes of the copy, and the copy still has
    root 9 and holds three of the six payloads. *)
Theorem copy_rewrites_source_root_of_cut_tree :
  (let h := after (build cut_keys) in
   build cut_keys empty_heap = Ret 0%nat h /\
   I2 h 0%nat = true /\
   deleteNode (host := numeric_host) 0%nat (locate 20) h
   = Ret (Some 1%nat) (cut_tree 0 0 (-1) 0 0 (-1) 0 0 0) /\
   shape_balanced (after (unlink_only cut_keys 1%nat)) 0%nat = true /\
   value_of (delete_walk 0%nat 20 h) = Some []) /\
  forall b0 b1 b2 b3 b4 b5 b6 b7 b8 : Z,
    let h0 := cut_tree b0 b1 b2 b3 b4 b5 b6 b7 b8 in
    let h1 := left_by (copy (host := numeric_host) 0%nat h0) in
    value_of (copy (host := numeric_host) 0%nat h0) = Some 1%nat /\
    length (nodes h0) = 9%nat /\
    shape_balanced h0 0%nat = false /\
    root_of h0 0%nat = Some 0%nat /\
    tree_nodes h0 0%nat = [1; 0; 8; 5; 2; 6]%nat /\
    tree_payloads h0 0%nat
    = [JNum 30; JNum 50; JNum 60; JNum 70; JNum 80; JNum 90] /\
    root_of h1 0%nat = Some 12%nat /\
    tree_nodes h1 0%nat = [10; 9; 14; 12; 11; 13]%nat /\
    root_of h1 1%nat = Some 9%nat /\
    tree_nodes h1 1%nat = [10; 9; 14]%nat /\
    tree_payloads h1 1%nat = [JNum 30; JNum 50; JNum 60].
Proof.
  split.
  - vm_compute. repeat split; reflexivity.
  - intros. vm_compute. repeat split; reflexivity.
Qed.

(** C8 (does not hold on this host): in the tree built from 20, 10, 30 the
    locator for 20 finds node 0, the root, which has two children.
    [deleteNode] answers node 0 with its four fields cleared, but the root
    slot of the tree still holds node 0: the node handed back is the node
    the tree now starts from.  In the tree built from 4, 2, 6, 1, 3, 5, 7
    the locator for 2 finds node 1; when [deleteNode] answers it, it is
    still the left child of the root. *)
Theorem deleteNode_answers_node_still_linked :
  (let h := after (build [20; 10; 30]) in
   let h2 := after (build_then_deleteNode [20; 10; 30] 20) in
   deleteNode (host := numeric_host) 0%nat (locate 20) h = Ret (Some 0%nat) h2 /\
   nodes h2 !! 0%nat
   = Some (AVLDataNode.mk (JNum 30) JUndefined None None None 0) /\
   root_of h2 0%nat = Some 0%nat /\
   tree_nodes h2 0%nat = [0%nat]) /\
  (let h := after (build [4; 2; 6; 1; 3; 5; 7]) in
   let h2 := after (build_then_deleteNode [4; 2; 6; 1; 3; 5; 7] 2) in
   deleteNode (host := numeric_host) 0%nat (locate 2) h = Ret (Some 1%nat) h2 /\
   nodes h2 !! 1%nat
   = Some (AVLDataNode.mk (JNum 3) JUndefined None None None 0) /\
   root_of h2 0%nat = Some 0%nat /\
   (AVLDataNode.left <$> nodes h2 !! 0%nat) = Some (Some 1%nat) /\
   tree_nodes h2 0%nat = [1; 0; 5; 2; 6]%nat).
Proof. split; vm_compute; repeat split; reflexivity. Qed.

(** ** The facade theorems at concrete inputs *)

Lemma root_getter_falsy_payload_witness :
  let h := after (build [0]) in
  root 0%nat h = Ret JNull h /\
  payload h 0%nat = JNum 0 /\
  root_of h 0%nat = Some 0%nat.
Proof.
  cbv zeta. split; [| split; reflexivity].
  apply (proj1 (root_getter_falsy_payload 0%nat (after (build [0]))
                  (AVLTree.mk (Some 0%nat) None) 0%nat
                  (AVLDataNode.mk (JNum 0) JUndefined None None None 0)
                  eq_refl eq_refl eq_refl)).
  reflexivity.
Defined.

Lemma insert_hands_resolved_id_witness :
  let h := after (new_AVLTree (OrderedTreeHost := bare_host)) in
  let with_id := JObj [("id"%string, JStr "a"); ("v"%string, JNum 7)] in
  let with_falsy_id := JObj [("id"%string, JNum 0); ("v"%string, JNum 7)] in
  let h1 := mkHeap [AVLDataNode.mk with_id JUndefined None None None 0] (trees h) in
  new_AVLDataNode (OrderedTreeHost := bare_host) with_id h = Ret 0%nat h1 /\
  insert (host := bare_host) 0%nat with_id (JStr "b") h
  = (node <- InsertNodeInBST (OrderedTreeHost := bare_host) 0%nat 0%nat (JStr "a") ;;
     match node with
     | Some node => SetBalanceFactorsBackward (OrderedTreeHost := bare_host) node 0%nat
     | None => ret tt
     end ;;;
     ret 0%nat) h1 /\
  (AVLDataNode.id <$>
     nodes (left_by (insert (host := bare_host) 0%nat with_id (JStr "b") h)) !! 0%nat)
  = Some (JStr "a") /\
  (AVLDataNode.id <$>
     nodes (left_by (insert (host := bare_host) 0%nat with_falsy_id (JStr "b") h))
       !! 0%nat)
  = Some (JStr "b") /\
  (AVLDataNode.id <$>
     nodes (left_by (insert (host := bare_host) 0%nat (JNum 7) (JStr "b") h)) !! 0%nat)
  = Some (JStr "b").
Proof.
  cbv zeta. split; [reflexivity |]. split; [| repeat split; reflexivity].
  apply (proj1 (insert_hands_resolved_id (host := bare_host) 0%nat
                  (JObj [("id"%string, JStr "a"); ("v"%string, JNum 7)])
                  (JStr "b")
                  (after (new_AVLTree (OrderedTreeHost := bare_host)))
                  (mkHeap [AVLDataNode.mk
                             (JObj [("id"%string, JStr "a"); ("v"%string, JNum 7)])
                             JUndefined None None None 0]
                          (trees (after (new_AVLTree (OrderedTreeHost := bare_host)))))
                  0%nat eq_refl)).
  reflexivity.
Defined.

Lemma insert_returns_this_witness :
  let h := after (build [20; 10; 30]) in
  exists h2 : Heap,
    new_AVLDataNode (OrderedTreeHost := numeric_host) (JNum 10) h = Ret 3%nat h2 /\
    InsertNodeInBST (OrderedTreeHost := numeric_host) 0%nat 3%nat
      (effective_id (JNum 10) JUndefined) h2 = Ret None h2 /\
    insert (host := numeric_host) 0%nat (JNum 10) JUndefined h = Ret 0%nat h2 /\
    trees h2 = trees h /\
    take 3 (nodes h2) = nodes h.
Proof.
  cbv zeta.
  exists (mkHeap (nodes (after (build [20; 10; 30]))
                    ++ [AVLDataNode.mk (JNum 10) JUndefined None None None 0])
                 (trees (after (build [20; 10; 30])))).
  split; [reflexivity |]. split; [reflexivity |].
  split; [| split; reflexivity].
  eapply (proj1 (proj2 (insert_returns_this (host := numeric_host)
                          0%nat (JNum 10) JUndefined
                          (after (build [20; 10; 30])))) 3%nat);
    reflexivity.
Defined.

Lemma delete_miss_leaves_heap_witness :
  let h := after (build [20; 10; 30]) in
  delete (host := numeric_host) 0%nat (JNum 25) None h = Ret JNull h /\
  deleteNode (host := numeric_host) 0%nat (locate 25) h = Ret None h.
Proof.
  cbv zeta.
  pose proof (delete_miss_leaves_heap (host := numeric_host) 0%nat (JNum 25)
                None (locate 25) (after (build [20; 10; 30]))
                (AVLTree.mk (Some 0%nat) None) eq_refl) as [D1 D2].
  split; [apply D1 | apply D2]; reflexivity.
Defined.

Lemma deleteNode_returns_cleared_node_witness :
  let h := after (build [20; 10; 30]) in
  let h3 := after (unlink_and_walk [20; 10; 30] 0%nat) in
  (AVLDataNode.left <$> nodes h3 !! 0%nat) = Some (Some 1%nat) /\
  (AVLDataNode.balance <$> nodes h3 !! 0%nat) = Some (-1) /\
  exists (h4 : Heap) (n' : AVLDataNode.t),
    deleteNode (host := numeric_host) 0%nat (locate 20) h = Ret (Some 0%nat) h4 /\
    nodes h4 !! 0%nat = Some n' /\
    AVLDataNode.prev n' = None /\
    AVLDataNode.left n' = None /\
    AVLDataNode.right n' = None /\
    AVLDataNode.balance n' = 0.
Proof.
  cbv zeta. split; [reflexivity |]. split; [reflexivity |].
  destruct (deleteNode_returns_cleared_node (host := numeric_host) 0%nat
              (locate 20) (after (build [20; 10; 30]))
              (after (build [20; 10; 30]))
              (after (unlink_only [20; 10; 30] 0%nat))
              (after (unlink_and_walk [20; 10; 30] 0%nat))
              0%nat None
              (AVLDataNode.mk (JNum 30) JUndefined None (Some 1%nat) None (-1))
              eq_refl eq_refl eq_refl eq_refl)
    as (h4 & n' & E & En & P & Lf & Rg & B & _).
  exists h4, n'. repeat split; assumption.
Defined.

(** * Further properties of the class *)

(** ** The root accessors, and deleteNode against delete *)

Lemma modify_tree_live (t : tref) f (h : Heap) (x : AVLTree.t) :
  trees h !! t = Some x ->
  modify_tree t f h = Ret tt (mkHeap (nodes h) (<[t := f x]> (trees h))).
Proof. intros E. unfold modify_tree. now rewrite E. Qed.

Lemma lookup_written_tree (l : list AVLTree.t) (t : tref) (x y : AVLTree.t) :
  l !! t = Some x -> <[t := y]> l !! t = Some y.
Proof.
  intros E. apply list_lookup_insert_eq. eapply lookup_lt_Some; eassumption.
Qed.

Section FacadeCompositions.
Context `{host : OrderedTreeHost}.

(** What the setter does with a truthy value, given what the constructor
    did. *)
Lemma set_root_truthy (this : tref) (data : JsVal) (h h1 : Heap) (n : ref)
    (t : AVLTree.t) :
  truthy data = true ->
  new_AVLDataNode data h = Ret n h1 ->
  trees h1 !! this = Some t ->
  set_root this data h
  = Ret tt (mkHeap (nodes h1) (<[this := AVLTree.set_root (Some n) t]> (trees h1))).
Proof.
  intros T E1 Et. unfold set_root. rewrite T.
  rewrite (bind_ret_l _ _ _ _ _ E1). now apply modify_tree_live.
Qed.

(** X1: assigning a falsy value to [root] changes nothing.  Assigning a
    truthy value and reading [root] back answers that value, provided the
    constructor wrapped it in the node it returned; the tree's root slot
    then holds the new node and the node objects are as the constructor left
    them. *)
Theorem root_set_then_get (this : tref) (data : JsVal) (h : Heap) :
  (truthy data = false -> set_root this data h = Ret tt h) /\
  (truthy data = true ->
   forall (n : ref) (h1 : Heap) (t : AVLTree.t) (x : AVLDataNode.t),
     new_AVLDataNode data h = Ret n h1 ->
     trees h1 !! this = Some t ->
     nodes h1 !! n = Some x ->
     AVLDataNode.data x = data ->
     (set_root this data ;;; root this) h
     = Ret data (mkHeap (nodes h1)
                        (<[this := AVLTree.set_root (Some n) t]> (trees h1)))).
Proof.
  split.
  - intros F. unfold set_root. now rewrite F.
  - intros T n h1 t x E1 Et En Ed.
    rewrite (bind_ret_l _ _ _ _ _ (set_root_truthy _ _ _ _ _ _ T E1 Et)).
    unfold root.
    erewrite bind_ret_l
      by (apply read_tree_live; cbn [trees]; eapply lookup_written_tree; exact Et).
    cbn [AVLTree._root AVLTree.set_root].
    erewrite bind_ret_l by (apply read_live; cbn [nodes]; exact En).
    unfold js_or, ret. now rewrite Ed, T.
Qed.

(** X2: assigning a truthy value to [root] drops whatever the tree held.
    When the constructor returns a node without children, the tree consists
    of that node alone afterwards; no node object and no other tree object
    is written. *)
Theorem root_set_discards_tree (this : tref) (data : JsVal) (h h1 : Heap)
    (n : ref) (t : AVLTree.t) (x : AVLDataNode.t) :
  truthy data = true ->
  new_AVLDataNode data h = Ret n h1 ->
  trees h1 !! this = Some t ->
  nodes h1 !! n = Some x ->
  AVLDataNode.left x = None ->
  AVLDataNode.right x = None ->
  exists h2 : Heap,
    set_root this data h = Ret tt h2 /\
    nodes h2 = nodes h1 /\
    root_of h2 this = Some n /\
    tree_nodes h2 this = [n] /\
    (forall t' : tref, t' <> this -> trees h2 !! t' = trees h1 !! t').
Proof.
  intros T E1 Et En El Er.
  eexists. split; [apply (set_root_truthy _ _ _ _ _ _ T E1 Et) |].
  cbn [nodes trees].
  assert (Hroot : root_of (mkHeap (nodes h1)
                    (<[this := AVLTree.set_root (Some n) t]> (trees h1))) this
                  = Some n).
  { unfold root_of. cbn [trees].
    now rewrite (lookup_written_tree _ _ _ _ Et). }
  split; [reflexivity |]. split; [exact Hroot |]. split.
  - unfold tree_nodes. rewrite Hroot. cbn [nodes].
    destruct (length (nodes h1)) as [|k] eqn:Hlen.
    + apply lookup_lt_Some in En. lia.
    + cbn [inorder nodes]. rewrite En, El, Er.
      destruct k; reflexivity.
  - intros t' Ht'. apply list_lookup_insert_ne. congruence.
Qed.

(** X3: [deleteNode] against [delete].  When both searches find the same
    node and the two balance routines leave the same heap, [delete] answers
    the payload that is in the node [deleteNode] answers, and the heap that
    [deleteNode] leaves is the heap that [delete] leaves with that one node
    rewritten: no links, balance factor 0, payload and identifier kept. *)
Theorem deleteNode_is_delete_then_clear (this : tref) (value : JsVal)
    (callback : option ValueCallback) (locator : NodeCallback)
    (h h1 h2 h3 : Heap) (t : AVLTree.t) (node : ref) (predecessor : option ref)
    (n : AVLDataNode.t) :
  trees h !! this = Some t ->
  BinarySearch (AVLTree._root t) value (default search callback) h
    = Ret (Some node) h1 ->
  binarySearchNode this locator h = Ret (Some node) h1 ->
  DeleteNodeInBST node this h1 = Ret predecessor h2 ->
  SetBalanceFactorsForward predecessor this h2 = Ret tt h3 ->
  SetBalanceFactorsAfterDeletion predecessor this h2 = Ret tt h3 ->
  nodes h3 !! node = Some n ->
  delete this value callback h = Ret (AVLDataNode.data n) h3 /\
  deleteNode this locator h
  = Ret (Some node)
        (mkHeap (<[node := AVLDataNode.mk (AVLDataNode.data n) (AVLDataNode.id n)
                             None None None 0]> (nodes h3))
                (trees h3)).
Proof.
  intros Ht Es Eb Ed Ef Ea En. split.
  - exact (delete_hit _ _ _ _ _ _ _ _ _ _ _ Ht Es Ed Ef En).
  - unfold deleteNode.
    rewrite (bind_ret_l _ _ _ _ _ Eb), (bind_ret_l _ _ _ _ _ Ed).
    rewrite (bind_ret_l _ _ _ _ _ Ea).
    now rewrite (clear_links node h3 n _ En).
Qed.

End FacadeCompositions.

(** ** print *)

Lemma string_append_assoc (s1 s2 s3 : string) :
  (s1 +:+ s2) +:+ s3 = s1 +:+ (s2 +:+ s3).
Proof.
  induction s1 as [|c s1 IH]; [reflexivity |].
  change (String c ((s1 +:+ s2) +:+ s3) = String c (s1 +:+ (s2 +:+ s3))).
  now f_equal.
Qed.

Lemma copies_add (s : string) (n m : nat) :
  copies s (n + m) = copies s n +:+ copies s m.
Proof.
  unfold copies. induction n as [|n IH]; [reflexivity |].
  rewrite Nat.add_succ_l, !Nat.iter_succ, IH.
  symmetry. apply string_append_assoc.
Qed.

(** [repeat] answers for a count between 0 and the limit, and only then. *)
Lemma js_repeat_space (count : Z) (indent : string) :
  js_repeat " " count = Some indent <->
  0 <= count <= string_length_limit /\ indent = copies " " (Z.to_nat count).
Proof.
  unfold js_repeat. change (Z.of_nat (String.length " ")) with 1.
  rewrite Z.mul_1_r.
  destruct (count <? 0) eqn:Hneg; destruct (string_length_limit <? count) eqn:Hbig;
    cbn [orb];
    try apply Z.ltb_lt in Hneg; try apply Z.ltb_ge in Hneg;
    try apply Z.ltb_lt in Hbig; try apply Z.ltb_ge in Hbig;
    split; try discriminate; try (intros [? _]; lia).
  - intros [= <-]. split; [lia | reflexivity].
  - intros [_ ->]. reflexivity.
Qed.

(** One level deeper means two more spaces at the end of the indentation. *)
Lemma js_repeat_deeper (level : Z) (indent deeper : string) :
  js_repeat " " (level * 2) = Some indent ->
  js_repeat " " ((level + 1) * 2) = Some deeper ->
  deeper = indent +:+ "  ".
Proof.
  intros Hi Hd.
  apply js_repeat_space in Hi as [Hl ->]. apply js_repeat_space in Hd as [Hl' ->].
  replace (Z.to_nat ((level + 1) * 2)) with (Z.to_nat (level * 2) + 2)%nat by lia.
  now rewrite copies_add.
Qed.

Lemma printed_seq_Printed (p q : printed) (lines : list string) :
  printed_seq p q = Printed lines ->
  exists l r : list string, p = Printed l /\ q = Printed r /\ lines = l ++ r.
Proof.
  destruct p as [l| |], q as [r| |]; cbn; try discriminate.
  intros [= <-]. eauto.
Qed.

Section PrintProperties.
Variable show : JsVal -> string.

Lemma print_loop_null (fuel : nat) (h : Heap) (level : Z) (prefix : string)
    (callback : PrintCallback) :
  print_loop show fuel h None level prefix callback = Printed [].
Proof. destruct fuel; reflexivity. Qed.

(** X4: [print] with an explicit null node logs nothing, whatever the tree
    holds and whatever the level; so does [print] without a node on an
    empty tree.  On a node, a negative level throws (the RangeError of
    [repeat]) instead of logging. *)
Theorem print_null_and_negative_level (this : tref) (level : option Z)
    (prefix : option string) (callback : option PrintCallback) (h : Heap) :
  print show this (Some None) level prefix callback h = Printed [] /\
  (root_of h this = None ->
     print show this None level prefix callback h = Printed []) /\
  (forall (a : ref) (n : AVLDataNode.t) (lvl : Z),
     nodes h !! a = Some n -> lvl < 0 ->
     print show this (Some (Some a)) (Some lvl) prefix callback h = PrintThrow).
Proof.
  split; [apply print_loop_null |]. split.
  - intros E. unfold print. cbn [default from_option id]. rewrite E. apply print_loop_null.
  - intros a n lvl En Hl. unfold print. cbn [default from_option id].
    destruct (length (nodes h)) as [|k] eqn:Hlen.
    + apply lookup_lt_Some in En. lia.
    + cbn [print_loop]. rewrite En.
      destruct (js_repeat " " (lvl * 2)) as [indent|] eqn:Hi; [| reflexivity].
      apply js_repeat_space in Hi as [Hi _]. lia.
Qed.

Lemma print_loop_count (h : Heap) (rank : ref -> nat) (callback : PrintCallback) :
  ranked h rank ->
  forall (fuel : nat) (node : option ref) (level : Z) (prefix : string),
    0 <= level ->
    (level + Z.of_nat fuel) * 2 <= string_length_limit ->
    (forall a : ref, node = Some a ->
       is_Some (nodes h !! a) /\ (rank a < fuel)%nat) ->
    exists lines : list string,
      print_loop show fuel h node level prefix callback = Printed lines /\
      length lines = length (inorder fuel h node).
Proof.
  intros Hr. induction fuel as [|fuel IH]; intros [a|] level prefix Hl Hb Hn.
  - destruct (Hn a eq_refl) as [_ Hlt]. lia.
  - exists []. split; reflexivity.
  - destruct (Hn a eq_refl) as [[n En] Hlt].
    cbn [print_loop inorder]. rewrite En.
    assert (Hi : js_repeat " " (level * 2)
                 = Some (copies " " (Z.to_nat (level * 2))))
      by (apply js_repeat_space; split; [lia | reflexivity]).
    rewrite Hi.
    assert (HL : exists ls : list string,
               match AVLDataNode.left n with
               | Some l => print_loop show fuel h (Some l) (level + 1) "L--> " callback
               | None => Printed []
               end = Printed ls /\
               length ls = length (inorder fuel h (AVLDataNode.left n))).
    { destruct (AVLDataNode.left n) as [l|] eqn:El.
      - apply IH; [lia | lia |]. intros c [= <-].
        destruct (Hr a n l En (or_introl El)) as [Hc Hlt']. split; [exact Hc | lia].
      - exists []. split; [reflexivity | now destruct fuel]. }
    assert (HR : exists rs : list string,
               match AVLDataNode.right n with
               | Some r => print_loop show fuel h (Some r) (level + 1) "R--> " callback
               | None => Printed []
               end = Printed rs /\
               length rs = length (inorder fuel h (AVLDataNode.right n))).
    { destruct (AVLDataNode.right n) as [r|] eqn:Er.
      - apply IH; [lia | lia |]. intros c [= <-].
        destruct (Hr a n r En (or_intror Er)) as [Hc Hlt']. split; [exact Hc | lia].
      - exists []. split; [reflexivity | now destruct fuel]. }
    destruct HL as (ls & -> & Hls), HR as (rs & -> & Hrs).
    eexists. split; [reflexivity |].
    cbn [printed_seq length app]. rewrite !length_app. cbn [length]. lia.
  - exists []. split; reflexivity.
Qed.

(** X5: on a heap whose links descend, when the level is not negative and
    every line fits in a string, [print] returns, and it logs exactly one
    line for each node below the node it starts from; called without a node,
    one line for each node of the tree.  The call stack is taken to be deep
    enough for the height of the tree. *)
Theorem print_one_line_per_node (this : tref) (node : option (option ref))
    (level : option Z) (prefix : option string) (callback : option PrintCallback)
    (h : Heap) (rank : ref -> nat) :
  ranked h rank ->
  0 <= default 0 level ->
  lines_fit show h (default 0 level) (default "Root: "%string prefix)
    (default AVLDataNode.data callback) ->
  (forall a : ref, default (root_of h this) node = Some a ->
     is_Some (nodes h !! a) /\ (rank a < length (nodes h))%nat) ->
  exists lines : list string,
    print show this node level prefix callback h = Printed lines /\
    length lines
    = length (inorder (length (nodes h)) h (default (root_of h this) node)) /\
    (node = None -> length lines = length (tree_nodes h this)).
Proof.
  intros Hr Hl Hfit Hn.
  assert (E : exists lines : list string,
             print show this node level prefix callback h = Printed lines /\
             length lines
             = length (inorder (length (nodes h)) h (default (root_of h this) node))).
  { unfold print.
    destruct (default (root_of h this) node) as [a|] eqn:Ea.
    - destruct (Hn a eq_refl) as [[n En] _].
      apply (print_loop_count h rank _ Hr); [exact Hl | | exact Hn].
      pose proof (Hfit a n "L--> "%string En (or_intror (or_introl eq_refl))). lia.
    - exists []. split; [apply print_loop_null | now destruct (length (nodes h))]. }
  destruct E as (lines & E & Hlen).
  exists lines. split; [exact E |]. split; [exact Hlen |].
  intros ->. exact Hlen.
Qed.

(** A node is logged only at a level whose indentation [repeat] builds. *)
Lemma print_loop_logged (fuel : nat) (h : Heap) (a : ref) (level : Z)
    (prefix : string) (callback : PrintCallback) (lines : list string) :
  print_loop show fuel h (Some a) level prefix callback = Printed lines ->
  exists indent : string, js_repeat " " (level * 2) = Some indent.
Proof.
  destruct fuel as [|fuel]; cbn [print_loop]; [discriminate |].
  destruct (nodes h !! a); [| discriminate].
  destruct (js_repeat " " (level * 2)) as [indent|]; [eauto | discriminate].
Qed.

Lemma print_loop_indented (h : Heap) (callback : PrintCallback) :
  forall (fuel : nat) (node : option ref) (level : Z) (prefix indent : string)
         (lines : list string),
    print_loop show fuel h node level prefix callback = Printed lines ->
    js_repeat " " (level * 2) = Some indent ->
    Forall (fun line => exists rest : string, line = indent +:+ rest) lines.
Proof.
  induction fuel as [|fuel IH]; intros [a|] level prefix indent lines E Hi;
    cbn [print_loop] in E; try discriminate;
    try (injection E as <-; constructor).
  destruct (nodes h !! a) as [n|]; [| discriminate].
  rewrite Hi in E.
  apply printed_seq_Printed in E as (l0 & r0 & [= <-] & E & ->).
  apply printed_seq_Printed in E as (ls & rs & EL & ER & ->).
  assert (Hsub : forall sub : list string,
             Forall (fun line => exists rest : string,
                       line = (indent +:+ "  ") +:+ rest) sub ->
             Forall (fun line => exists rest : string, line = indent +:+ rest) sub).
  { intros sub Hf. eapply Forall_impl; [exact Hf |]. intros line [rest ->].
    exists ("  " +:+ rest). now rewrite string_append_assoc. }
  constructor; [unfold print_line; eexists; reflexivity |].
  apply Forall_app. split; apply Hsub.
  - destruct (AVLDataNode.left n) as [l|].
    + destruct (print_loop_logged _ _ _ _ _ _ _ EL) as [deeper Hd].
      rewrite <- (js_repeat_deeper _ _ _ Hi Hd). eapply IH; eassumption.
    + injection EL as <-. constructor.
  - destruct (AVLDataNode.right n) as [r|].
    + destruct (print_loop_logged _ _ _ _ _ _ _ ER) as [deeper Hd].
      rewrite <- (js_repeat_deeper _ _ _ Hi Hd). eapply IH; eassumption.
    + injection ER as <-. constructor.
Qed.

(** X6: what [print] logs is indented by depth.  Every line starts with the
    indentation of the level [print] was called at, two spaces for each
    level, and the lines below the first start with two spaces more.  The
    first line is the indentation, the prefix, the rendered answer of the
    callback and the balance factor of the node [print] started from. *)
Theorem print_indented (this : tref) (node : option (option ref))
    (level : option Z) (prefix : option string) (callback : option PrintCallback)
    (h : Heap) (lines : list string) (indent : string) :
  print show this node level prefix callback h = Printed lines ->
  js_repeat " " (default 0 level * 2) = Some indent ->
  Forall (fun line => exists rest : string, line = indent +:+ rest) lines /\
  (forall (a : ref) (n : AVLDataNode.t),
     default (root_of h this) node = Some a ->
     nodes h !! a = Some n ->
     exists below : list string,
       lines = print_line show indent (default "Root: "%string prefix)
                 (default AVLDataNode.data callback) n :: below /\
       Forall (fun line => exists rest : string,
                 line = (indent +:+ "  ") +:+ rest) below).
Proof.
  intros E Hi. split.
  - eapply print_loop_indented; eassumption.
  - intros a n Ea En. unfold print in E. rewrite Ea in E.
    destruct (length (nodes h)) as [|fuel]; cbn [print_loop] in E;
      [discriminate |].
    rewrite En, Hi in E.
    apply printed_seq_Printed in E as (l0 & r0 & [= <-] & E & ->).
    apply printed_seq_Printed in E as (ls & rs & EL & ER & ->).
    eexists. split; [reflexivity |].
    apply Forall_app. split.
    + destruct (AVLDataNode.left n) as [l|].
      * destruct (print_loop_logged _ _ _ _ _ _ _ EL) as [deeper Hd].
        rewrite <- (js_repeat_deeper _ _ _ Hi Hd).
        eapply print_loop_indented; eassumption.
      * injection EL as <-. constructor.
    + destruct (AVLDataNode.right n) as [r|].
      * destruct (print_loop_logged _ _ _ _ _ _ _ ER) as [deeper Hd].
        rewrite <- (js_repeat_deeper _ _ _ Hi Hd).
        eapply print_loop_indented; eassumption.
      * injection ER as <-. constructor.
Qed.

End PrintProperties.


(** ** The further properties at concrete inputs *)

Lemma root_set_then_get_witness :
  let h := after (build [20; 10; 30]) in
  set_root (host := numeric_host) 0%nat (JNum 0) h = Ret tt h /\
  value_of ((set_root (host := numeric_host) 0%nat (JNum 7) ;;; root 0%nat) h)
  = Some (JNum 7).
Proof.
  cbv zeta. split.
  - apply (proj1 (root_set_then_get (host := numeric_host) 0%nat (JNum 0)
                    (after (build [20; 10; 30])))).
    reflexivity.
  - rewrite (proj2 (root_set_then_get (host := numeric_host) 0%nat (JNum 7)
                      (after (build [20; 10; 30])))
               eq_refl 3%nat
               (mkHeap (nodes (after (build [20; 10; 30]))
                          ++ [AVLDataNode.mk (JNum 7) JUndefined None None None 0])
                       (trees (after (build [20; 10; 30]))))
               (AVLTree.mk (Some 0%nat) None)
               (AVLDataNode.mk (JNum 7) JUndefined None None None 0)
               eq_refl eq_refl eq_refl eq_refl).
    reflexivity.
Defined.

Lemma root_set_discards_tree_witness :
  let h := after (build [20; 10; 30]) in
  tree_nodes h 0%nat = [1; 0; 2]%nat /\
  exists h2 : Heap,
    set_root (host := numeric_host) 0%nat (JNum 7) h = Ret tt h2 /\
    tree_nodes h2 0%nat = [3%nat].
Proof.
  cbv zeta. split; [reflexivity |].
  destruct (root_set_discards_tree (host := numeric_host) 0%nat (JNum 7)
              (after (build [20; 10; 30]))
              (mkHeap (nodes (after (build [20; 10; 30]))
                         ++ [AVLDataNode.mk (JNum 7) JUndefined None None None 0])
                      (trees (after (build [20; 10; 30]))))
              3%nat (AVLTree.mk (Some 0%nat) None)
              (AVLDataNode.mk (JNum 7) JUndefined None None None 0)
              eq_refl eq_refl eq_refl eq_refl eq_refl eq_refl)
    as (h2 & E & _ & _ & Hn & _).
  exists h2. split; assumption.
Defined.

Lemma deleteNode_is_delete_then_clear_witness :
  let h := after (build [20; 10; 30]) in
  let h3 := after (unlink_and_walk [20; 10; 30] 0%nat) in
  delete (host := numeric_host) 0%nat (JNum 20) None h = Ret (JNum 30) h3 /\
  deleteNode (host := numeric_host) 0%nat (locate 20) h
  = Ret (Some 0%nat)
        (mkHeap (<[0%nat := AVLDataNode.mk (JNum 30) JUndefined None None None 0]>
                   (nodes h3))
                (trees h3)).
Proof.
  cbv zeta.
  apply (deleteNode_is_delete_then_clear (host := numeric_host) 0%nat (JNum 20)
           None (locate 20)
           (after (build [20; 10; 30])) (after (build [20; 10; 30]))
           (after (unlink_only [20; 10; 30] 0%nat))
           (after (unlink_and_walk [20; 10; 30] 0%nat))
           (AVLTree.mk (Some 0%nat) None) 0%nat None
           (AVLDataNode.mk (JNum 30) JUndefined None (Some 1%nat) None (-1)));
    reflexivity.
Defined.

Lemma print_null_and_negative_level_witness :
  let h := after (build [20; 10; 30]) in
  print to_string 0%nat (Some None) (Some (-1)) None None h = Printed [] /\
  print to_string 0%nat (Some (Some 0%nat)) (Some (-1)) None None h = PrintThrow.
Proof.
  cbv zeta.
  pose proof (print_null_and_negative_level to_string 0%nat (Some (-1)) None None
                (after (build [20; 10; 30]))) as (E1 & _ & E3).
  split; [exact E1 |].
  apply (E3 0%nat (AVLDataNode.mk (JNum 20) JUndefined None (Some 1%nat)
                     (Some 2%nat) 0)); [reflexivity | lia].
Defined.

Lemma print_one_line_per_node_witness :
  let h := after (build [20; 10; 30]) in
  exists lines : list string,
    print to_string 0%nat None None None None h = Printed lines /\
    length lines = 3%nat.
Proof.
  cbv zeta.
  destruct (print_one_line_per_node to_string 0%nat None None None None
              (after (build [20; 10; 30]))
              (fun a => if Nat.eqb a 0 then 1 else 0)%nat
              ranked_small_tree) as (lines & E & _ & Hn).
  - cbn. lia.
  - intros a n pfx En Hp.
    destruct a as [|[|[|a]]]; vm_compute in En; [| | | discriminate];
      injection En as <-; destruct Hp as [->|[->| ->]];
      vm_compute; intros C; discriminate C.
  - intros a [= <-]. split; [eexists; reflexivity | vm_compute; lia].
  - exists lines. split; [exact E |]. rewrite (Hn eq_refl). reflexivity.
Defined.

Lemma print_indented_witness :
  let h := after (build [20; 10; 30]) in
  print to_string 0%nat None None None None h
  = Printed ["Root: 20 [BF = 0]"; "  L--> 10 [BF = 0]"; "  R--> 30 [BF = 0]"]%string /\
  Forall (fun line => exists rest : string, line = ("  " +:+ rest)%string)
    ["  L--> 10 [BF = 0]"; "  R--> 30 [BF = 0]"]%string.
Proof.
  cbv zeta. split; [reflexivity |].
  destruct (proj2 (print_indented to_string 0%nat None None None None
                     (after (build [20; 10; 30]))
                     ["Root: 20 [BF = 0]"; "  L--> 10 [BF = 0]";
                      "  R--> 30 [BF = 0]"]%string
                     EmptyString eq_refl eq_refl)
              0%nat
              (AVLDataNode.mk (JNum 20) JUndefined None (Some 1%nat) (Some 2%nat) 0)
              eq_refl eq_refl) as (below & E & Hb).
  injection E as <-. exact Hb.
Defined.


(** ** copy, node by node *)

(** X8: what [copy] does for a node it visits.  The constructor is called
    with the payload of the visited node; the identifier of the new node is
    overwritten with that of the visited node, whatever the constructor had
    derived; and from the heap so obtained the visit is exactly: the
    structural insertion of the new node into the new tree with an undefined
    id argument, followed, if the host answers a node, by the backward walk
    on that node, and by nothing if the host answers null. *)
Theorem copy_visit_hands_over_id `{host : OrderedTreeHost} (this tree : tref)
    (node c : ref) (h h1 : Heap) (n n' x : AVLDataNode.t) :
  nodes h !! node = Some n ->
  new_AVLDataNode (AVLDataNode.data n) h = Ret c h1 ->
  nodes h1 !! node = Some n' ->
  nodes h1 !! c = Some x ->
  let handed :=
    mkHeap (<[c := AVLDataNode.mk (AVLDataNode.data x) (AVLDataNode.id n')
                     (AVLDataNode.prev x) (AVLDataNode.left x)
                     (AVLDataNode.right x) (AVLDataNode.balance x)]> (nodes h1))
           (trees h1) in
  copy_visit this tree node h
  = (insertedNode <- InsertNodeInBST tree c JUndefined ;;
     match insertedNode with
     | Some insertedNode => SetBalanceFactorsBackward insertedNode this
     | None => ret tt
     end) handed.
Proof.
  intros En Ec En' Ex handed. subst handed. unfold copy_visit.
  rewrite (bind_ret_l _ _ _ _ _ (read_live _ _ _ En)).
  rewrite (bind_ret_l _ _ _ _ _ Ec).
  rewrite (bind_ret_l _ _ _ _ _ (read_live _ _ _ En')).
  rewrite (bind_ret_l _ _ _ _ _ (modify_live _ _ _ _ Ex)).
  reflexivity.
Qed.

Lemma copy_visit_hands_over_id_witness :
  let m := (this <- build [20; 10; 30] ;;
            insert (host := numeric_host) this (JNum 40) (JStr "forty") ;;;
            new_AVLTree (OrderedTreeHost := numeric_host)) in
  let h := after m in
  let h2 := left_by (copy_visit (host := numeric_host) 0%nat 1%nat 3%nat h) in
  nodes h !! 3%nat
  = Some (AVLDataNode.mk (JNum 40) (JStr "forty") (Some 2%nat) None None 0) /\
  copy_visit (host := numeric_host) 0%nat 1%nat 3%nat h = Ret tt h2 /\
  nodes h2 !! 4%nat
  = Some (AVLDataNode.mk (JNum 40) (JStr "forty") None None None 0) /\
  root_of h2 1%nat = Some 4%nat /\
  tree_nodes h2 0%nat = tree_nodes h 0%nat.
Proof.
  cbv zeta. split; [reflexivity |]. split; [| repeat split; reflexivity].
  set (m := (this <- build [20; 10; 30] ;;
             insert (host := numeric_host) this (JNum 40) (JStr "forty") ;;;
             new_AVLTree (OrderedTreeHost := numeric_host))).
  rewrite (copy_visit_hands_over_id (host := numeric_host) 0%nat 1%nat 3%nat
             4%nat (after m)
             (mkHeap (nodes (after m)
                        ++ [AVLDataNode.mk (JNum 40) JUndefined None None None 0])
                     (trees (after m)))
             (AVLDataNode.mk (JNum 40) (JStr "forty") (Some 2%nat) None None 0)
             (AVLDataNode.mk (JNum 40) (JStr "forty") (Some 2%nat) None None 0)
             (AVLDataNode.mk (JNum 40) JUndefined None None None 0)
             eq_refl eq_refl eq_refl eq_refl).
  vm_compute. reflexivity.
Defined.
